(** * tuningtron: family dispatch and hyperparameter derivation

    A shallow embedding of [src/tuningtron/models.py] and
    [src/tuningtron/tuner.py].

    Conventions of the embedding.
    - A Python [str] is a [string]; every character stands for one code
      point below 256.
    - A Python [dict] with string keys whose order does not matter (a
      dataset row, [os.environ]) is a [gmap string _]; a dict literal that is
      handed on as keyword arguments keeps its insertion order as an
      association list.
    - Exceptions are values of [exn]; a computation is its outcome together
      with the events (log lines and the like) it emitted.
    - The external collaborators (torch, transformers, datasets, numpy,
      deepspeed) are the fields of a [World]: the program is a function of
      what they answer. The loaders and the tokenizer always answer; the
      length percentile and the train/test split may raise. *)

From Stdlib Require Import String Ascii.
From stdpp Require Import base option list strings gmap pretty.

Local Open Scope string_scope.
Local Open Scope list_scope.

(** ** Python strings *)

Module PyStr.

(** [str.isspace] on one character, for code points below 256. *)
Definition isspace (c : ascii) : bool :=
  let n := nat_of_ascii c in
  (Nat.leb 9 n && Nat.leb n 13) || (Nat.leb 28 n && Nat.leb n 32)
  || Nat.eqb n 133 || Nat.eqb n 160.

Fixpoint lstrip (s : string) : string :=
  match s with
  | EmptyString => EmptyString
  | String c s' => if isspace c then lstrip s' else s
  end.

Fixpoint rstrip (s : string) : string :=
  match s with
  | EmptyString => EmptyString
  | String c s' =>
      match rstrip s' with
      | EmptyString => if isspace c then EmptyString else String c EmptyString
      | r => String c r
      end
  end.

(** [s.strip()] *)
Definition strip (s : string) : string := rstrip (lstrip s).

(** [s.startswith(p)] *)
Definition startswith (s p : string) : bool := String.prefix p s.

Fixpoint replace_from (old new : string) (skip : nat) (s : string) : string :=
  match s with
  | EmptyString => EmptyString
  | String c s' =>
      match skip with
      | S k => replace_from old new k s'
      | O =>
          if String.prefix old s
          then new ++ replace_from old new (String.length old - 1) s'
          else String c (replace_from old new 0 s')
      end
  end.

(** [s.replace(old, new)] for a non-empty [old]: leftmost occurrences, not
    overlapping. *)
Definition replace (old new s : string) : string := replace_from old new 0 s.

(** Truth value of an optional string ([None] and [""] are false). *)
Definition truthy (o : option string) : bool :=
  match o with
  | Some (String _ _) => true
  | _ => false
  end.

(** [str(b)] of a bool, and of an optional string as an f-string prints it. *)
Definition str_bool (b : bool) : string := if b then "True" else "False".

Definition str_opt (o : option string) : string :=
  match o with
  | Some s => s
  | None => "None"
  end.

Definition str_nat (n : nat) : string := pretty n.

End PyStr.

(** ** Values, exceptions, effects *)

(** A float literal as the source writes it: [mantissa * 10 ^ exponent]. *)
Record pyfloat := PyFloat { mantissa : Z; exponent : Z }.

(** The values that occur in the keyword dictionaries. *)
#[warnings="-register-all"] Inductive pyval :=
| PNone
| PBool (b : bool)
| PInt (n : Z)
| PFloat (f : pyfloat)
| PStr (s : string)
| PDict (kvs : list (string * pyval)).

Definition pydict := list (string * pyval).

(** First binding of a key in an insertion-ordered dict literal (the keys of
    the literals below are distinct). *)
Fixpoint dict_get (k : string) (d : pydict) : option pyval :=
  match d with
  | [] => None
  | (k', v) :: d' => if String.eqb k k' then Some v else dict_get k d'
  end.

Inductive exn :=
| KeyError (key : string)
| AttributeError (obj attr : string)
| UnboundLocalError (var : string)
| IndexError
| ValueError (msg : string)
| Exception (msg : string).

Definition result (A : Type) : Type := (exn + A)%type.

#[global] Instance result_ret : MRet result := fun A a => inr a.
#[global] Instance result_bind : MBind result := fun A B k r =>
  match r with
  | inl e => inl e
  | inr a => k a
  end.

(** A dataset row. *)
Abbreviation Record_ := (gmap string string).

(** One message of a Formatted Prompt. *)
Record message := Message { role : string; content : string }.

(** What a tokenizer call returns. *)
Record Encoding := { input_ids : list Z; attention_mask : list Z }.

(** A dataset: its column names, its rows, and the tokenizer columns that
    [Dataset.map] attaches to the rows (empty before mapping). *)
Record Dataset := {
  column_names : list string;
  rows : list Record_;
  encodings : list Encoding
}.

(** Every row has exactly the dataset's columns. *)
Definition row_wf (cols : list string) (r : Record_) : bool :=
  bool_decide (dom r = list_to_set cols).

Definition dataset_wf (d : Dataset) : bool :=
  forallb (row_wf (column_names d)) (rows d).

Inductive event :=
| Info (msg : string)                    (* logger.info of a string *)
| InfoDataset (d : Dataset)              (* logger.info of a dataset object *)
| InfoIds (ids : list Z)                 (* logger.info of a token list *)
| RootWarn (msg : string)                (* logging.warn *)
| Print (label : string) (d : Dataset)   (* print(label, dataset) *)
| InfoModelStatus                        (* logger.info of the adapter status *)
| InitDistributed.                       (* deepspeed.init_distributed() *)

(** ** The effect monad: exceptions, and a log of events

    The program only ever appends to its log, so a computation is its outcome
    together with the events it emitted, in order. After an exception nothing
    more is emitted. *)

Definition M (A : Type) : Type := (result A * list event)%type.

Definition ret {A} (a : A) : M A := (inr a, []).

Definition raise {A} (e : exn) : M A := (inl e, []).

Definition bind {A B} (m : M A) (k : A -> M B) : M B :=
  match m with
  | (inl e, evs) => (inl e, evs)
  | (inr a, evs) => let '(r, evs') := k a in (r, evs ++ evs')
  end.

Definition emit (e : event) : M unit := (inr tt, [e]).

Definition lift {A} (r : result A) : M A := (r, []).

#[global] Instance M_ret : MRet M := @ret.
#[global] Instance M_bind : MBind M := fun A B k m => bind m k.

Definition outcome {A} (m : M A) : result A := fst m.
Definition trace {A} (m : M A) : list event := snd m.

(** A list comprehension whose body may raise. *)
Fixpoint mapM {F : Type -> Type} `{!MBind F, !MRet F} {A B}
    (f : A -> F B) (l : list A) : F (list B) :=
  match l with
  | [] => mret []
  | a :: l' => b ← f a; bs ← mapM f l'; mret (b :: bs)
  end.

(** [filter] with a predicate that may raise. *)
Fixpoint filterM {F : Type -> Type} `{!MBind F, !MRet F} {A}
    (f : A -> F bool) (l : list A) : F (list A) :=
  match l with
  | [] => mret []
  | a :: l' =>
      keep ← f a; rest ← filterM f l';
      mret (if keep : bool then a :: rest else rest)
  end.

(** ** External collaborators *)

Record PretrainedConfig := {
  model_type : string;
  tie_word_embeddings : bool
}.

Record Tokenizer := {
  pad_token : option string;
  bos_token : option string;
  eos_token : option string;
  (* tokenizer.apply_chat_template(chat, tokenize=False); [None] is what
     BaseModel.prepare_chat_template returns *)
  tok_apply_chat_template : option (list message) -> string;
  (* tokenizer(text) and, with [Some n],
     tokenizer(text, truncation=True, max_length=n, padding="max_length") *)
  tok_call : string -> option nat -> Encoding
}.

Record Device := {
  total_memory : nat;
  memory_reserved : nat;
  memory_allocated : nat
}.

Record World := {
  (* os.environ when the process starts *)
  environ : gmap string string;
  (* torch.cuda *)
  cuda_is_available : bool;
  cuda_devices : list Device;
  cuda_device_capability : nat * nat;
  (* transformers *)
  AutoConfig_from_pretrained : string -> PretrainedConfig;
  AutoTokenizer_from_pretrained : string -> Tokenizer;
  (* datasets.load_dataset(name, split="train") *)
  load_dataset : string -> Dataset;
  (* int(np.percentile(lengths, q)) *)
  np_percentile_int : list nat -> pyfloat -> result nat;
  (* dataset.train_test_split(test_size=0.1): train and test parts *)
  train_test_split : Dataset -> result (Dataset * Dataset)
}.

(** ** models.py *)

Module Models.

Inductive pyclass := BaseModel | GemmaModel | CohereModel | QwenModel.

(** An instance of [BaseModel] or of one of its subclasses: the attributes
    that [BaseModel.__init__] sets, and the class of the object. *)
Record ModelConfig := {
  cls : pyclass;
  base_model_id : string;
  config : PretrainedConfig;
  tokenizer : Tokenizer;
  target_modules : list string
}.

Definition class_name (c : pyclass) : string :=
  match c with
  | BaseModel => "BaseModel"
  | GemmaModel => "GemmaModel"
  | CohereModel => "CohereModel"
  | QwenModel => "QwenModel"
  end.

(** The names each class body defines. *)
Definition class_dict (c : pyclass) : list string :=
  match c with
  | BaseModel => ["__init__"; "prepare_chat_template"; "apply_chat_template"]
  | GemmaModel | CohereModel | QwenModel => ["__init__"; "prepare_chat_template"]
  end.

(** Method resolution order (below [object]). *)
Definition mro (c : pyclass) : list pyclass :=
  match c with
  | BaseModel => [BaseModel]
  | _ => [c; BaseModel]
  end.

Inductive attr :=
| AStr (s : string)
| AStrs (l : list string)
| AConfig (c : PretrainedConfig)
| ATokenizer (t : Tokenizer)
| AMethod (owner : pyclass) (name : string).

(** [self.<name>]: the instance attributes first, then the classes of the
    method resolution order. *)
Definition getattr (self : ModelConfig) (name : string) : result attr :=
  if String.eqb name "base_model_id" then inr (AStr (base_model_id self))
  else if String.eqb name "config" then inr (AConfig (config self))
  else if String.eqb name "tokenizer" then inr (ATokenizer (tokenizer self))
  else if String.eqb name "target_modules" then inr (AStrs (target_modules self))
  else
    match List.find (fun c => bool_decide (name ∈ class_dict c)) (mro (cls self)) with
    | Some c => inr (AMethod c name)
    | None => inl (AttributeError (class_name (cls self)) name)
    end.

(** [record[key]] *)
Definition getitem (record : Record_) (key : string) : result string :=
  match record !! key with
  | Some v => inr v
  | None => inl (KeyError key)
  end.

Definition nl : string := String (ascii_of_nat 10) EmptyString.

Section WithWorld.
Variable w : World.

(** [BaseModel.__init__], run for an object of class [c]. *)
Definition BaseModel__init__ (c : pyclass) (base_model_id : string)
    (config : PretrainedConfig) : M ModelConfig :=
  let self := {|
    cls := c;
    base_model_id := base_model_id;
    config := config;
    tokenizer := AutoTokenizer_from_pretrained w base_model_id;
    target_modules := ["q_proj"; "k_proj"; "v_proj"; "o_proj"; "gate_proj";
                       "up_proj"; "down_proj"; "lm_head"]
  |} in
  (if PyStr.truthy (pad_token (tokenizer self))
   then emit (Info ("Pad token: " ++ default "" (pad_token (tokenizer self))))
   else emit (RootWarn "Pad token not found"));;
  (if PyStr.truthy (bos_token (tokenizer self))
   then emit (Info ("Bos token: " ++ default "" (bos_token (tokenizer self))))
   else emit (RootWarn "Bos token not found"));;
  (if PyStr.truthy (eos_token (tokenizer self))
   then emit (Info ("Eos token: " ++ default "" (eos_token (tokenizer self))))
   else emit (RootWarn "Eos token not found"));;
  mret self.

(** [ModelsFactory.get_model_config] *)
Definition get_model_config (base_model_id : string) : M ModelConfig :=
  let config := AutoConfig_from_pretrained w base_model_id in
  if PyStr.startswith (model_type config) "gemma" then
    BaseModel__init__ GemmaModel base_model_id config
  else if PyStr.startswith (model_type config) "cohere" then
    BaseModel__init__ CohereModel base_model_id config
  else if PyStr.startswith (model_type config) "qwen" then
    BaseModel__init__ QwenModel base_model_id config
  else
    raise (Exception ("Unsupported model type: " ++ base_model_id)).

End WithWorld.

(** [prepare_chat_template], dispatched on the class of [self]; [None] is the
    value of the body [pass]. *)
Definition prepare_chat_template (self : ModelConfig) (record : Record_)
    : result (option (list message)) :=
  match cls self with
  | BaseModel => mret None
  | GemmaModel =>
      instruct ← getitem record "instruct";
      input ← getitem record "input";
      output ← getitem record "output";
      mret (Some [
        Message "user" (PyStr.strip instruct ++ nl ++ nl ++ nl ++ PyStr.strip input);
        Message "assistant" (PyStr.strip output)])
  | CohereModel =>
      instruct ← getitem record "instruct";
      input ← getitem record "input";
      output ← getitem record "output";
      mret (Some [
        Message "system" (PyStr.strip instruct);
        Message "user" (PyStr.strip input);
        Message "assistant" (PyStr.strip output)])
  | QwenModel =>
      instruct ← getitem record "instruct";
      input ← getitem record "input";
      output ← getitem record "output";
      mret (Some [
        Message "system" (PyStr.strip instruct);
        Message "user" (PyStr.strip input);
        Message "assistant" (PyStr.strip output)])
  end.

(** [BaseModel.apply_chat_template] *)
Definition apply_chat_template (self : ModelConfig) (record : Record_)
    : result string :=
  chat ← prepare_chat_template self record;
  let text := tok_apply_chat_template (tokenizer self) chat in
  mret (if PyStr.truthy (bos_token (tokenizer self))
       then PyStr.replace (default "" (bos_token (tokenizer self))) "" text
       else text).

(** The roles of a Formatted Prompt, in order. *)
Definition roles (chat : list message) : list string := map role chat.

End Models.

(** ** The dataset operations the tuner calls *)

Module Datasets.

(** [dataset[0]] *)
Definition first_row (d : Dataset) : result Record_ :=
  match rows d with
  | r :: _ => inr r
  | [] => inl IndexError
  end.

(** [dataset["input_ids"][0]] *)
Definition first_input_ids (d : Dataset) : result (list Z) :=
  if bool_decide ("input_ids" ∈ column_names d) then
    match encodings d with
    | e :: _ => inr (input_ids e)
    | [] => inl IndexError
    end
  else inl (KeyError "input_ids").

(** [dataset.map(f)] once [f] has been applied to every row: the columns of
    the encodings are added (nothing is added to a dataset without rows). *)
Definition with_encodings (d : Dataset) (encs : list Encoding) : Dataset :=
  match encs with
  | [] => d
  | _ :: _ => {|
      column_names :=
        column_names d ++
        filter (fun c => c ∉ column_names d) ["input_ids"; "attention_mask"];
      rows := rows d;
      encodings := encs
    |}
  end.

(** [dataset.remove_columns(names)]: every name has to be a column. *)
Definition remove_columns (d : Dataset) (names : list string) : result Dataset :=
  if forallb (fun c => bool_decide (c ∈ column_names d)) names then
    inr {|
      column_names :=
        filter (fun c => c ∉ names) (column_names d);
      rows := map (fun r => foldr delete r names) (rows d);
      encodings := encodings d
    |}
  else inl (ValueError "Column name not in the dataset").

End Datasets.

(** ** tuner.py *)

Module Tuner.

Record Tuner := {
  base_model_id : string;
  model_config : Models.ModelConfig;
  tokenizer : Tokenizer;
  device_map : option string;
  deepspeed : option pydict;
  optim : string;
  bf16 : bool;
  fp16 : bool;
  attn_implementation : option string;
  (* attributes that exist only once a method has set them *)
  max_len : option nat;
  eval_strategy : option string;
  eval_steps : option (option pyfloat)
}.

Definition set_device_map (v : option string) (t : Tuner) : Tuner :=
  {| base_model_id := base_model_id t; model_config := model_config t;
     tokenizer := tokenizer t; device_map := v; deepspeed := deepspeed t;
     optim := optim t; bf16 := bf16 t; fp16 := fp16 t;
     attn_implementation := attn_implementation t; max_len := max_len t;
     eval_strategy := eval_strategy t; eval_steps := eval_steps t |}.

Definition set_deepspeed (v : option pydict) (t : Tuner) : Tuner :=
  {| base_model_id := base_model_id t; model_config := model_config t;
     tokenizer := tokenizer t; device_map := device_map t; deepspeed := v;
     optim := optim t; bf16 := bf16 t; fp16 := fp16 t;
     attn_implementation := attn_implementation t; max_len := max_len t;
     eval_strategy := eval_strategy t; eval_steps := eval_steps t |}.

Definition set_optim (v : string) (t : Tuner) : Tuner :=
  {| base_model_id := base_model_id t; model_config := model_config t;
     tokenizer := tokenizer t; device_map := device_map t;
     deepspeed := deepspeed t; optim := v; bf16 := bf16 t; fp16 := fp16 t;
     attn_implementation := attn_implementation t; max_len := max_len t;
     eval_strategy := eval_strategy t; eval_steps := eval_steps t |}.

Definition set_bf16 (v : bool) (t : Tuner) : Tuner :=
  {| base_model_id := base_model_id t; model_config := model_config t;
     tokenizer := tokenizer t; device_map := device_map t;
     deepspeed := deepspeed t; optim := optim t; bf16 := v; fp16 := fp16 t;
     attn_implementation := attn_implementation t; max_len := max_len t;
     eval_strategy := eval_strategy t; eval_steps := eval_steps t |}.

Definition set_fp16 (v : bool) (t : Tuner) : Tuner :=
  {| base_model_id := base_model_id t; model_config := model_config t;
     tokenizer := tokenizer t; device_map := device_map t;
     deepspeed := deepspeed t; optim := optim t; bf16 := bf16 t; fp16 := v;
     attn_implementation := attn_implementation t; max_len := max_len t;
     eval_strategy := eval_strategy t; eval_steps := eval_steps t |}.

Definition set_attn_implementation (v : option string) (t : Tuner) : Tuner :=
  {| base_model_id := base_model_id t; model_config := model_config t;
     tokenizer := tokenizer t; device_map := device_map t;
     deepspeed := deepspeed t; optim := optim t; bf16 := bf16 t;
     fp16 := fp16 t; attn_implementation := v; max_len := max_len t;
     eval_strategy := eval_strategy t; eval_steps := eval_steps t |}.

Definition set_max_len (v : nat) (t : Tuner) : Tuner :=
  {| base_model_id := base_model_id t; model_config := model_config t;
     tokenizer := tokenizer t; device_map := device_map t;
     deepspeed := deepspeed t; optim := optim t; bf16 := bf16 t;
     fp16 := fp16 t; attn_implementation := attn_implementation t;
     max_len := Some v;
     eval_strategy := eval_strategy t; eval_steps := eval_steps t |}.

Definition set_eval (strategy : string) (steps : option pyfloat) (t : Tuner)
    : Tuner :=
  {| base_model_id := base_model_id t; model_config := model_config t;
     tokenizer := tokenizer t; device_map := device_map t;
     deepspeed := deepspeed t; optim := optim t; bf16 := bf16 t;
     fp16 := fp16 t; attn_implementation := attn_implementation t;
     max_len := max_len t;
     eval_strategy := Some strategy; eval_steps := Some steps |}.

(** Reading an attribute that a method may not have set yet. *)
Definition attribute {A} (name : string) (o : option A) : result A :=
  match o with
  | Some a => inr a
  | None => inl (AttributeError "Tuner" name)
  end.

(** [Tuner.get_deepspeed_config] *)
Definition get_deepspeed_config : pydict := [
  ("zero_force_ds_cpu_optimizer", PBool false);
  ("bf16", PDict [("enabled", PStr "auto")]);
  ("zero_optimization", PDict [
     ("stage", PInt 3);
     ("offload_optimizer", PDict [("device", PStr "cpu")]);
     ("offload_param", PDict [("device", PStr "cpu")]);
     ("overlap_comm", PBool true);
     ("sub_group_size", PFloat (PyFloat 1 9));
     ("reduce_bucket_size", PStr "auto");
     ("stage3_prefetch_bucket_size", PStr "auto");
     ("stage3_param_persistence_threshold", PStr "auto");
     ("gather_16bit_weights_on_model_save", PBool true)]);
  ("gradient_accumulation_steps", PStr "auto");
  ("gradient_clipping", PStr "auto");
  ("steps_per_print", PStr "auto");
  ("train_batch_size", PStr "auto");
  ("train_micro_batch_size_per_gpu", PStr "auto")
].

Definition dashes45 : string := "---------------------------------------------".
Definition dashes51 : string :=
  "---------------------------------------------------".

Section WithWorld.
Variable w : World.

(** [os.environ] as the module sees it: the import of tuner.py sets
    TOKENIZERS_PARALLELISM before anything else runs. *)
Definition os_environ : gmap string string :=
  <["TOKENIZERS_PARALLELISM" := "false"]> (environ w).

Fixpoint print_devices (i : nat) (ds : list Device) : M unit :=
  match ds with
  | [] => mret tt
  | d :: ds' =>
      emit (Info ("GPU: " ++ PyStr.str_nat i));;
      emit (Info ("Total GPU Memory: " ++ PyStr.str_nat (total_memory d)));;
      emit (Info ("Reserved GPU Memory: " ++ PyStr.str_nat (memory_reserved d)));;
      emit (Info ("Allocated GPU Memory: " ++ PyStr.str_nat (memory_allocated d)));;
      emit (Info dashes51);;
      print_devices (S i) ds'
  end.

(** [Tuner.print_cuda_info] *)
Definition print_cuda_info : M unit :=
  visible_devices ← lift (Models.getitem os_environ "CUDA_VISIBLE_DEVICES");
  emit (Info ("visible_devices: " ++ visible_devices));;
  emit (Info dashes51);;
  emit (Info "CUDA Devices:");;
  print_devices 0 (cuda_devices w).

(** [Tuner.__init__] *)
Definition __init__ (base_model_id : string) (enable_deepspeed : bool)
    : M Tuner :=
  print_cuda_info;;
  model_config ← Models.get_model_config w base_model_id;
  let self := {|
    base_model_id := base_model_id;
    model_config := model_config;
    tokenizer := Models.tokenizer model_config;
    device_map := Some "auto";
    deepspeed := None;
    optim := "adamw_8bit";
    bf16 := false;
    fp16 := false;
    attn_implementation := None;
    max_len := None; eval_strategy := None; eval_steps := None
  |} in
  self ←
    (if cuda_is_available w then
       self ←
         (if enable_deepspeed then
            emit InitDistributed;;
            let self := set_device_map None self in
            let self := set_deepspeed (Some get_deepspeed_config) self in
            let self := set_optim "adamw_torch" self in
            emit (Info "deepspeed: enabled");;
            mret self
          else mret self);
       if Nat.leb 8 (fst (cuda_device_capability w)) then
         let self := set_bf16 true self in
         if PyStr.startswith
              (model_type (Models.config (Tuner.model_config self))) "gemma"
         then mret (set_attn_implementation (Some "eager") self)
         else mret (set_attn_implementation (Some "flash_attention_2") self)
       else mret (set_fp16 true self)
     else mret (set_bf16 true self));
  emit (Info ("Detected hyperparameters: fp16: " ++ PyStr.str_bool (fp16 self)
              ++ ", bf16: " ++ PyStr.str_bool (bf16 self)
              ++ ", flash_attentions: "
              ++ PyStr.str_opt (attn_implementation self)));;
  mret self.

(** [Tuner.get_instruction] *)
Definition get_instruction (self : Tuner) (record : Record_) : result string :=
  Models.apply_chat_template (model_config self) record.

(** [Tuner.map_func] *)
Definition map_func (self : Tuner) (record : Record_) : result Encoding :=
  text ← get_instruction self record;
  n ← attribute "max_len" (max_len self);
  mret (tok_call (tokenizer self) text (Some n)).

(** [Tuner.filter_func] *)
Definition filter_func (self : Tuner) (record : Record_) : result bool :=
  text ← get_instruction self record;
  n ← attribute "max_len" (max_len self);
  mret (Nat.leb (length (input_ids (tok_call (tokenizer self) text None))) n).

(** [Tuner.prepare_datasets]: the tuner with its evaluation attributes set,
    the train dataset and the evaluation dataset. *)
Definition prepare_datasets (self : Tuner) (dataset : Dataset) (do_eval : bool)
    : M (Tuner * Dataset * option Dataset) :=
  let self := set_eval "no" None self in
  if do_eval then
    '(train_dataset, eval_dataset) ← lift (train_test_split w dataset);
    let self := set_eval "steps" (Some (PyFloat 1 (-1))) self in
    emit (Info "Eval dataset:");;
    emit (InfoDataset eval_dataset);;
    emit (Info "Train dataset:");;
    emit (InfoDataset train_dataset);;
    mret (self, train_dataset, Some eval_dataset)
  else
    emit (Info "Train dataset:");;
    emit (InfoDataset dataset);;
    mret (self, dataset, None).

(** [Tuner.prepare_args] *)
Definition prepare_args (self : Tuner) (num_train_epochs : nat)
    (learning_rate : pyfloat) (batch_size gradient_steps : nat)
    (lr_scheduler_type : string) : result pydict :=
  strategy ← attribute "eval_strategy" (eval_strategy self);
  steps ← attribute "eval_steps" (eval_steps self);
  mret [
    ("output_dir", PStr ".");
    ("num_train_epochs", PInt (Z.of_nat num_train_epochs));
    ("logging_steps", PInt 1);
    ("eval_strategy", PStr strategy);
    ("eval_steps", match steps with Some f => PFloat f | None => PNone end);
    ("gradient_checkpointing", PBool true);
    ("save_strategy", PStr "no");
    ("bf16", PBool (bf16 self));
    ("fp16", PBool (fp16 self));
    ("optim", PStr (optim self));
    ("weight_decay", PFloat (PyFloat 1 (-3)));
    ("learning_rate", PFloat learning_rate);
    ("lr_scheduler_type", PStr lr_scheduler_type);
    ("per_device_train_batch_size", PInt (Z.of_nat batch_size));
    ("per_device_eval_batch_size", PInt (Z.of_nat batch_size));
    ("gradient_accumulation_steps", PInt (Z.of_nat gradient_steps));
    ("eval_accumulation_steps", PInt 1);
    ("deepspeed", match deepspeed self with Some d => PDict d | None => PNone end)
  ].

Record LoraConfig := {
  r : nat;
  lora_alpha : nat;
  lora_target_modules : list string;
  lora_dropout : pyfloat;
  task_type : string
}.

(** [Tuner.get_lora_config]; [None] and [0] are the false values of
    [lora_alpha]. *)
Definition get_lora_config (self : Tuner) (rank : nat) (alpha : option nat)
    : LoraConfig :=
  let alpha :=
    match alpha with
    | Some (S a) => S a
    | _ => rank
    end in
  {| r := rank; lora_alpha := alpha;
     lora_target_modules := Models.target_modules (model_config self);
     lora_dropout := PyFloat 1 (-1); task_type := "CAUSAL_LM" |}.

Inductive DataCollator :=
| DataCollatorForCompletionOnlyLM (response_template : Models.attr)
| DataCollatorForLanguageModeling.

(** What [sft] hands to the external trainer: the keyword arguments of
    [from_pretrained] in [load_base_model], the adapter configuration, and
    the arguments of [Trainer], [train] and [save_model]. *)
Record TrainerCall := {
  load_attn_implementation : option string;
  load_device_map : option string;
  peft_config : LoraConfig;
  train_dataset : Dataset;
  eval_dataset : option Dataset;
  data_collator : DataCollator;
  args : pydict;
  adapter_name : string
}.

(** The keyword parameters of [sft]. *)
Record SftOptions := {
  do_eval : bool;
  max_len_percentile : pyfloat;
  rank : nat;
  opt_lora_alpha : option nat;
  opt_lora_dropout : pyfloat;
  num_train_epochs : nat;
  batch_size : nat;
  gradient_steps : nat;
  learning_rate : pyfloat;
  comp_only : bool
}.

Definition sft_defaults : SftOptions := {|
  do_eval := false;
  max_len_percentile := PyFloat 100 0;
  rank := 32;
  opt_lora_alpha := None;
  opt_lora_dropout := PyFloat 1 (-1);
  num_train_epochs := 1;
  batch_size := 4;
  gradient_steps := 2;
  learning_rate := PyFloat 1 (-5);
  comp_only := false
|}.

(** Lines 74-90 of [Tuner.sft]: load the dataset, measure, filter and
    tokenize it. *)
Definition sft_tokenize (self : Tuner) (dataset : string) (o : SftOptions)
    : M (Tuner * Dataset) :=
  let dataset := load_dataset w dataset in
  inputs ← lift (mapM (F := result)
      (fun record =>
         text ← get_instruction self record;
         mret (input_ids (tok_call (tokenizer self) text None)))
      (rows dataset));
  let target_lenghts := map length inputs in
  n ← lift (np_percentile_int w target_lenghts (max_len_percentile o));
  let self := set_max_len n self in
  emit (Info ("Dataset max_len detected: " ++ PyStr.str_nat n));;
  emit (Info "Dataset example row after appy chat template:");;
  emit (Info dashes45);;
  example ← lift (Datasets.first_row dataset ≫= get_instruction self);
  emit (Info example);;
  emit (Info dashes45);;
  emit (Print "DS before filtering:" dataset);;
  kept ← lift (filterM (F := result) (filter_func self) (rows dataset));
  let dataset := {| column_names := column_names dataset; rows := kept;
                    encodings := encodings dataset |} in
  emit (Print "DS after filtering:" dataset);;
  encs ← lift (mapM (F := result) (map_func self) (rows dataset));
  let dataset := Datasets.with_encodings dataset encs in
  emit (Print "DS after mapping:" dataset);;
  ids ← lift (Datasets.first_input_ids dataset);
  emit (InfoIds ids);;
  emit (Info dashes45);;
  mret (self, dataset).

(** Lines 92-98 of [Tuner.sft]: drop the text columns; [lr_scheduler_type]
    is bound on the way, or stays unbound ([None]). *)
Definition sft_select_scheduler (dataset : Dataset)
    : result (Dataset * option string) :=
  '(dataset, lr_scheduler_type) ←
    (if bool_decide ("text" ∈ column_names dataset) then
       dataset ← Datasets.remove_columns dataset ["text"];
       mret (dataset, Some "constant")
     else mret (dataset, None));
  if bool_decide ("instruct" ∈ column_names dataset) then
    dataset ← Datasets.remove_columns dataset ["instruct"; "input"; "output"];
    mret (dataset, Some "linear")
  else mret (dataset, lr_scheduler_type).

(** Lines 100-121 of [Tuner.sft]: the data collator, the split, the training
    arguments, and the call of the trainer. *)
Definition sft_train (self : Tuner) (dataset : Dataset)
    (lr_scheduler_type : option string) (adapter_name : string)
    (o : SftOptions) : M (Tuner * TrainerCall) :=
  data_collator ←
    (if comp_only o then
       emit (Info "Using data collator: CompletionOnlyLM");;
       response_template ←
         lift (Models.getattr (model_config self) "response_template");
       mret (DataCollatorForCompletionOnlyLM response_template)
     else
       emit (Info "Using data collator: LanguageModeling");;
       mret DataCollatorForLanguageModeling);
  '(self, train_dataset, eval_dataset) ←
    prepare_datasets self dataset (do_eval o);
  lr_scheduler_type ←
    match lr_scheduler_type with
    | Some s => mret s
    | None => raise (UnboundLocalError "lr_scheduler_type")
    end;
  args ← lift (prepare_args self (num_train_epochs o) (learning_rate o)
                 (batch_size o) (gradient_steps o) lr_scheduler_type);
  emit InfoModelStatus;;
  mret (self, {|
    load_attn_implementation := attn_implementation self;
    load_device_map := device_map self;
    peft_config := get_lora_config self (rank o) (opt_lora_alpha o);
    train_dataset := train_dataset;
    eval_dataset := eval_dataset;
    data_collator := data_collator;
    args := args;
    adapter_name := adapter_name
  |}).

(** [Tuner.sft] *)
Definition sft (self : Tuner) (dataset adapter_name : string) (o : SftOptions)
    : M (Tuner * TrainerCall) :=
  '(self, dataset) ← sft_tokenize self dataset o;
  '(dataset, lr_scheduler_type) ← lift (sft_select_scheduler dataset);
  sft_train self dataset lr_scheduler_type adapter_name o.

(** The keyword parameters of [dpo]. *)
Record DpoOptions := {
  dpo_do_eval : bool;
  dpo_rank : nat;
  dpo_lora_alpha : option nat;
  dpo_lora_dropout : pyfloat;
  dpo_num_train_epochs : nat;
  dpo_batch_size : nat;
  dpo_gradient_steps : nat;
  dpo_learning_rate : pyfloat
}.


(** What [dpo] hands to the external preference trainer. *)
Record DPOTrainerCall := {
  dpo_load_attn_implementation : option string;
  dpo_load_device_map : option string;
  dpo_peft_config : LoraConfig;
  dpo_train_dataset : Dataset;
  dpo_eval_dataset : option Dataset;
  processing_class : Tokenizer;
  dpo_args : pydict;
  dpo_adapter_name : string
}.

(** [Tuner.dpo] *)
Definition dpo (self : Tuner) (dataset adapter_name : string) (o : DpoOptions)
    : M (Tuner * DPOTrainerCall) :=
  let dataset := load_dataset w dataset in
  '(self, train_dataset, eval_dataset) ←
    prepare_datasets self dataset (dpo_do_eval o);
  args ← lift (prepare_args self (dpo_num_train_epochs o) (dpo_learning_rate o)
                 (dpo_batch_size o) (dpo_gradient_steps o) "linear");
  mret (self, {|
    dpo_load_attn_implementation := attn_implementation self;
    dpo_load_device_map := device_map self;
    dpo_peft_config := get_lora_config self (dpo_rank o) (dpo_lora_alpha o);
    dpo_train_dataset := train_dataset;
    dpo_eval_dataset := eval_dataset;
    processing_class := tokenizer self;
    dpo_args := args;
    dpo_adapter_name := adapter_name
  |}).

End WithWorld.

End Tuner.

(** ** [Tuner.merge]

    [merge] is a sequence of calls into the model libraries. Each call is
    recorded; an oracle says which calls raise. Every model is loaded with
    [torch_dtype=torch.bfloat16]. *)

Module Merge.

Inductive call :=
(* AutoModelForCausalLM.from_pretrained(path, device_map=...,
   [tie_word_embeddings=...]) *)
| LoadModel (path : string) (device_map : option string)
            (tie_word_embeddings : option bool)
(* base_model.lm_head.weight.data =
     base_model.model.embed_tokens.weight.data.clone() *)
| CopyEmbeddingsToHead
| SaveBaseModel (dir : string)       (* base_model.save_pretrained(dir) *)
| SaveBaseConfig (dir : string)      (* base_model.config.save_pretrained(dir) *)
| LoadAdapter (adapter : string)     (* PeftModel.from_pretrained(base_model, adapter) *)
| LogInfo (msg : string)             (* logger.info(msg) *)
| MergeAndUnload                     (* peft_model.merge_and_unload() *)
| SaveMergedModel (dir : string)     (* merged_model.save_pretrained(dir) *)
| LoadTokenizer (path : string)      (* AutoTokenizer.from_pretrained(path) *)
| SaveTokenizer (dir : string)       (* tmp_tokenizer.save_pretrained(dir) *)
| SaveVocabulary (dir : string).     (* tmp_tokenizer.save_vocabulary(dir) *)

Definition oracle := call -> option exn.

Definition Script (A : Type) : Type := oracle -> result A * list call.

#[global] Instance Script_ret : MRet Script := fun A a _ => (inr a, []).
#[global] Instance Script_bind : MBind Script := fun A B k m orc =>
  match m orc with
  | (inl e, cs) => (inl e, cs)
  | (inr a, cs) => let '(r, cs') := k a orc in (r, cs ++ cs')
  end.

(** A call into a library: it is recorded, and raises if the oracle says so. *)
Definition perform (c : call) : Script unit := fun orc =>
  match orc c with
  | Some e => (inl e, [c])
  | None => (inr tt, [c])
  end.

(** A call that does not raise. *)
Definition note (c : call) : Script unit := fun _ => (inr tt, [c]).

(** [try: body except: pass] *)
Definition try_except_pass (body : Script unit) : Script unit := fun orc =>
  let '(_, cs) := body orc in (inr tt, cs).

Definition untied_model_dir : string := "./tmp_model".

(** [Tuner.merge] *)
Definition merge (self : Tuner.Tuner) (merged_name first_adapter : string)
    : Script unit :=
  (if tie_word_embeddings (Models.config (Tuner.model_config self)) then
     perform (LoadModel (Tuner.base_model_id self) (Tuner.device_map self)
                        (Some false));;
     perform CopyEmbeddingsToHead;;
     perform (SaveBaseModel untied_model_dir);;
     perform (SaveBaseConfig untied_model_dir);;
     perform (LoadModel untied_model_dir (Tuner.device_map self) None)
   else
     perform (LoadModel (Tuner.base_model_id self) (Tuner.device_map self) None));;
  perform (LoadAdapter first_adapter);;
  note (LogInfo ("Merging adapter: " ++ first_adapter ++ " -> " ++ merged_name));;
  perform MergeAndUnload;;
  perform (SaveMergedModel merged_name);;
  perform (LoadTokenizer (Tuner.base_model_id self));;
  perform (SaveTokenizer merged_name);;
  try_except_pass (perform (SaveVocabulary merged_name)).

Definition is_save_vocabulary (c : call) : bool :=
  match c with
  | SaveVocabulary _ => true
  | _ => false
  end.

End Merge.

(** ** Sample collaborators, for evaluating the program *)

Module Samples.

Definition render (chat : option (list message)) : string :=
  match chat with
  | Some msgs =>
      "<bos>" ++ String.concat ""
        (map (fun m : message =>
                ("<" ++ role m ++ ">" ++ content m ++ Models.nl)%string) msgs)
  | None => "<bos>"
  end.

Definition encode (text : string) (n : option nat) : Encoding :=
  let ids := map (fun c => Z.of_nat (nat_of_ascii c)) (list_ascii_of_string text) in
  match n with
  | None => {| input_ids := ids; attention_mask := map (fun _ => 1%Z) ids |}
  | Some n =>
      let kept := take n ids in
      {| input_ids := kept ++ replicate (n - length kept) 0%Z;
         attention_mask :=
           map (fun _ => 1%Z) kept ++ replicate (n - length kept) 0%Z |}
  end.

Definition tokenizer : Tokenizer := {|
  pad_token := Some "<pad>";
  bos_token := Some "<bos>";
  eos_token := None;
  tok_apply_chat_template := render;
  tok_call := encode
|}.

(** A world whose models all report the model type [mt] and whose datasets
    all load as [d]. *)
Definition world (env : gmap string string) (cuda : bool) (major : nat)
    (mt : string) (d : Dataset) : World := {|
  environ := env;
  cuda_is_available := cuda;
  cuda_devices :=
    if cuda then [{| total_memory := 1024; memory_reserved := 0;
                     memory_allocated := 0 |}] else [];
  cuda_device_capability := (major, 0);
  AutoConfig_from_pretrained := fun _ =>
    {| model_type := mt; tie_word_embeddings := false |};
  AutoTokenizer_from_pretrained := fun _ => tokenizer;
  load_dataset := fun _ => d;
  np_percentile_int := fun lengths _ =>
    match lengths with
    | [] => inl (IndexError)
    | _ :: _ => inr (foldr Nat.max 0 lengths)
    end;
  train_test_split := fun d => inr (d, d)
|}.

Definition env : gmap string string := {["CUDA_VISIBLE_DEVICES" := "0"]}.

Definition instruct_row : Record_ :=
  {["instruct" := " Translate. "; "input" := "bonjour"; "output" := " hello"]}.

Definition text_row : Record_ := {["text" := "hello"]}.

Definition other_row : Record_ := {["prompt" := "hello"]}.

Definition instruct_dataset : Dataset :=
  {| column_names := ["instruct"; "input"; "output"];
     rows := [instruct_row]; encodings := [] |}.

Definition text_dataset : Dataset :=
  {| column_names := ["text"]; rows := [text_row]; encodings := [] |}.

Definition other_dataset : Dataset :=
  {| column_names := ["prompt"]; rows := [other_row]; encodings := [] |}.

(** The strategy of a model type, as the registry builds it. *)
Definition strategy (mt : string) : result Models.ModelConfig :=
  outcome (Models.get_model_config (world env false 0 mt instruct_dataset) "m").

(** [sft(..., comp_only=True)] *)
Definition completion_only : Tuner.SftOptions := {|
  Tuner.do_eval := false;
  Tuner.max_len_percentile := PyFloat 100 0;
  Tuner.rank := 32;
  Tuner.opt_lora_alpha := None;
  Tuner.opt_lora_dropout := PyFloat 1 (-1);
  Tuner.num_train_epochs := 1;
  Tuner.batch_size := 4;
  Tuner.gradient_steps := 2;
  Tuner.learning_rate := PyFloat 1 (-5);
  Tuner.comp_only := true
|}.

(** The tuner of a qwen2 model on a machine without accelerator. *)
Definition qwen_tuner : Tuner.Tuner :=
  let m := {|
    Models.cls := Models.QwenModel;
    Models.base_model_id := "m";
    Models.config := {| model_type := "qwen2"; tie_word_embeddings := false |};
    Models.tokenizer := tokenizer;
    Models.target_modules :=
      ["q_proj"; "k_proj"; "v_proj"; "o_proj"; "gate_proj"; "up_proj";
       "down_proj"; "lm_head"]
  |} in
  {| Tuner.base_model_id := "m";
     Tuner.model_config := m;
     Tuner.tokenizer := tokenizer;
     Tuner.device_map := Some "auto";
     Tuner.deepspeed := None;
     Tuner.optim := "adamw_8bit";
     Tuner.bf16 := true;
     Tuner.fp16 := false;
     Tuner.attn_implementation := None;
     Tuner.max_len := None;
     Tuner.eval_strategy := None;
     Tuner.eval_steps := None |}.

(** [Tuner(base_model_id).sft(dataset, adapter_name, ...)] *)
Definition tune (w : World) (o : Tuner.SftOptions)
    : result (Tuner.Tuner * Tuner.TrainerCall) :=
  outcome (self ← Tuner.__init__ w "m" true; Tuner.sft w self "d" "out" o).

End Samples.

(** ** Further sample inputs *)

Module Cases.

(** A machine without accelerator, a qwen2 model, the instruction dataset. *)
Definition w_instruct : World :=
  Samples.world Samples.env false 0 "qwen2" Samples.instruct_dataset.

(** A machine with one accelerator of capability 8. *)
Definition w_cuda : World :=
  Samples.world Samples.env true 8 "qwen2" Samples.instruct_dataset.

(** The instruction row with whitespace around its fields. *)
Definition padded_row : Record_ :=
  {["instruct" := ("   Translate.  " ++ Models.nl)%string;
    "input" := (Models.nl ++ "bonjour ")%string;
    "output" := (" hello" ++ Models.nl ++ Models.nl)%string]}.

Definition with_eval : Tuner.SftOptions := {|
  Tuner.do_eval := true;
  Tuner.max_len_percentile := PyFloat 100 0;
  Tuner.rank := 16;
  Tuner.opt_lora_alpha := Some 0;
  Tuner.opt_lora_dropout := PyFloat 1 (-1);
  Tuner.num_train_epochs := 1;
  Tuner.batch_size := 4;
  Tuner.gradient_steps := 2;
  Tuner.learning_rate := PyFloat 1 (-5);
  Tuner.comp_only := false
|}.

Definition other_dropout : Tuner.SftOptions := {|
  Tuner.do_eval := false;
  Tuner.max_len_percentile := PyFloat 100 0;
  Tuner.rank := 32;
  Tuner.opt_lora_alpha := None;
  Tuner.opt_lora_dropout := PyFloat 5 (-1);
  Tuner.num_train_epochs := 1;
  Tuner.batch_size := 4;
  Tuner.gradient_steps := 2;
  Tuner.learning_rate := PyFloat 1 (-5);
  Tuner.comp_only := false
|}.

Definition dpo_with_eval : Tuner.DpoOptions := {|
  Tuner.dpo_do_eval := true;
  Tuner.dpo_rank := 32;
  Tuner.dpo_lora_alpha := None;
  Tuner.dpo_lora_dropout := PyFloat 1 (-1);
  Tuner.dpo_num_train_epochs := 1;
  Tuner.dpo_batch_size := 4;
  Tuner.dpo_gradient_steps := 2;
  Tuner.dpo_learning_rate := PyFloat 1 (-5)
|}.

(** A tuner whose model ties its word embeddings. *)
Definition tied_tuner : Tuner.Tuner :=
  let m := {|
    Models.cls := Models.GemmaModel;
    Models.base_model_id := "g";
    Models.config := {| model_type := "gemma2"; tie_word_embeddings := true |};
    Models.tokenizer := Samples.tokenizer;
    Models.target_modules :=
      ["q_proj"; "k_proj"; "v_proj"; "o_proj"; "gate_proj"; "up_proj";
       "down_proj"; "lm_head"]
  |} in
  {| Tuner.base_model_id := "g";
     Tuner.model_config := m;
     Tuner.tokenizer := Samples.tokenizer;
     Tuner.device_map := Some "auto";
     Tuner.deepspeed := None;
     Tuner.optim := "adamw_8bit";
     Tuner.bf16 := true;
     Tuner.fp16 := false;
     Tuner.attn_implementation := None;
     Tuner.max_len := None;
     Tuner.eval_strategy := None;
     Tuner.eval_steps := None |}.

(** Oracles: nothing raises; only the vocabulary save raises. *)
Definition nothing_raises : Merge.oracle := fun _ => None.

Definition vocabulary_raises : Merge.oracle := fun c =>
  if Merge.is_save_vocabulary c then Some (Exception "not supported") else None.

End Cases.

(** ** The vocabulary of the properties *)

(** The family prefixes the registry knows. *)
Definition known_prefixes : list string := ["gemma"; "cohere"; "qwen"].

Definition known_family (mt : string) : bool :=
  existsb (PyStr.startswith mt) known_prefixes.

(** A row that carries the three fields of an instruction record. *)
Definition instruction_record (r : Record_) : Prop :=
  is_Some (r !! "instruct") /\ is_Some (r !! "input") /\ is_Some (r !! "output").

(** The hyperparameters that [Tuner.__init__] derives. *)
Definition hyperparameters (t : Tuner.Tuner)
    : option string * option pydict * string * bool * bool * option string :=
  (Tuner.device_map t, Tuner.deepspeed t, Tuner.optim t, Tuner.bf16 t,
   Tuner.fp16 t, Tuner.attn_implementation t).

(** The call of [deepspeed.init_distributed] among the events. *)
Definition is_init_distributed (e : event) : bool :=
  match e with
  | InitDistributed => true
  | _ => false
  end.

(** Strings made of whitespace only; whitespace at either end of a string. *)
Definition all_space (s : string) : bool :=
  forallb PyStr.isspace (list_ascii_of_string s).

Definition starts_with_space (s : string) : bool :=
  match s with
  | String c _ => PyStr.isspace c
  | EmptyString => false
  end.

Fixpoint ends_with_space (s : string) : bool :=
  match s with
  | EmptyString => false
  | String c EmptyString => PyStr.isspace c
  | String _ s' => ends_with_space s'
  end.

(** No whitespace at either end. *)
Definition trimmed (s : string) : Prop :=
  starts_with_space s = false /\ ends_with_space s = false.

(** [old in s] *)
Fixpoint occurs (old s : string) : bool :=
  String.prefix old s ||
  match s with
  | EmptyString => false
  | String _ s' => occurs old s'
  end.

(** The keys of a keyword dictionary, in order. *)
Definition dict_keys (d : pydict) : list string := map fst d.

(** * Properties *)

(** ** Outcomes and traces of composed computations *)

Lemma outcome_bind {A B} (m : M A) (k : A -> M B) :
  outcome (m ≫= k) = outcome m ≫= (fun a => outcome (k a)).
Proof.
  destruct m as [[e | a] evs]; [reflexivity |].
  unfold mbind, M_bind, bind, outcome; simpl. now destruct (k a).
Qed.

Lemma trace_bind_raise {A B} (m : M A) (k : A -> M B) e :
  outcome m = inl e -> trace (m ≫= k) = trace m.
Proof. destruct m as [[e' | a] evs]; [reflexivity | discriminate]. Qed.

Lemma trace_bind_return {A B} (m : M A) (k : A -> M B) a :
  outcome m = inr a -> trace (m ≫= k) = trace m ++ trace (k a).
Proof.
  destruct m as [[e' | a'] evs]; [discriminate |]. intros [= ->].
  unfold mbind, M_bind, bind, trace; simpl. now destruct (k a).
Qed.

Lemma outcome_mret {A} (a : A) : outcome (mret a : M A) = inr a.
Proof. reflexivity. Qed.

Lemma outcome_emit e : outcome (emit e) = inr tt.
Proof. reflexivity. Qed.

Lemma outcome_lift {A} (r : result A) : outcome (lift r) = r.
Proof. reflexivity. Qed.

Lemma outcome_raise {A} e : outcome (raise e : M A) = inl e.
Proof. reflexivity. Qed.

Lemma outcome_if {A} (b : bool) (m1 m2 : M A) :
  outcome (if b then m1 else m2) = if b then outcome m1 else outcome m2.
Proof. now destruct b. Qed.

(** Push [outcome] through the structure of a computation. *)
Ltac outcomes :=
  repeat progress
    (repeat first
       [ rewrite outcome_bind | rewrite outcome_mret | rewrite outcome_emit
       | rewrite outcome_lift | rewrite outcome_raise | rewrite outcome_if ];
     cbn [mbind result_bind]).

Lemma inr_eq {A B} (x y : B) : @inr A B x = inr y -> x = y.
Proof. congruence. Qed.

Lemma result_bind_inr {A B} (r : result A) (k : A -> result B) b :
  r ≫= k = inr b -> exists a, r = inr a /\ k a = inr b.
Proof. destruct r as [e | a]; [discriminate | eauto]. Qed.

Lemma result_bind_inl {A B} (r : result A) (k : A -> result B) e :
  r = inl e -> r ≫= k = inl e.
Proof. now intros ->. Qed.

(** ** Python strings *)

Lemma prefix_head a p b s :
  String.prefix (String a p) (String b s) = true -> a = b.
Proof.
  cbn [String.prefix]. destruct (ascii_dec a b); [auto | discriminate].
Qed.

Lemma prefix_head_ne a p b s :
  a <> b -> String.prefix (String a p) (String b s) = false.
Proof.
  intros Hne. cbn [String.prefix]. destruct (ascii_dec a b); congruence.
Qed.

(** A string starts with at most one of the known prefixes. *)
Lemma startswith_gemma_cohere mt :
  PyStr.startswith mt "gemma" = true -> PyStr.startswith mt "cohere" = false.
Proof.
  unfold PyStr.startswith. destruct mt as [| c mt]; [discriminate |].
  intros <-%prefix_head. now apply prefix_head_ne.
Qed.

Lemma startswith_gemma_qwen mt :
  PyStr.startswith mt "gemma" = true -> PyStr.startswith mt "qwen" = false.
Proof.
  unfold PyStr.startswith. destruct mt as [| c mt]; [discriminate |].
  intros <-%prefix_head. now apply prefix_head_ne.
Qed.

Lemma known_family_cases mt :
  known_family mt = true <->
  PyStr.startswith mt "gemma" = true \/ PyStr.startswith mt "cohere" = true
  \/ PyStr.startswith mt "qwen" = true.
Proof.
  unfold known_family, known_prefixes; simpl.
  destruct (PyStr.startswith mt "gemma"), (PyStr.startswith mt "cohere"),
    (PyStr.startswith mt "qwen"); simpl; intuition congruence.
Qed.

Lemma unknown_family_cases mt :
  known_family mt = false <->
  PyStr.startswith mt "gemma" = false /\ PyStr.startswith mt "cohere" = false
  /\ PyStr.startswith mt "qwen" = false.
Proof.
  unfold known_family, known_prefixes; simpl.
  destruct (PyStr.startswith mt "gemma"), (PyStr.startswith mt "cohere"),
    (PyStr.startswith mt "qwen"); simpl; intuition congruence.
Qed.

Lemma startswith_cohere_qwen mt :
  PyStr.startswith mt "cohere" = true -> PyStr.startswith mt "qwen" = false.
Proof.
  unfold PyStr.startswith. destruct mt as [| c mt]; [discriminate |].
  intros <-%prefix_head. now apply prefix_head_ne.
Qed.

(** ** The model family registry *)

Section Registry.
Variable w : World.

Lemma BaseModel__init__spec c id cfg :
  outcome (Models.BaseModel__init__ w c id cfg) =
  inr {| Models.cls := c; Models.base_model_id := id; Models.config := cfg;
         Models.tokenizer := AutoTokenizer_from_pretrained w id;
         Models.target_modules :=
           ["q_proj"; "k_proj"; "v_proj"; "o_proj"; "gate_proj"; "up_proj";
            "down_proj"; "lm_head"] |}.
Proof.
  unfold Models.BaseModel__init__. outcomes.
  repeat (destruct (PyStr.truthy _)); reflexivity.
Qed.

(** The strategy the registry returns is the object that
    [BaseModel.__init__] builds for the class of the first matching prefix. *)
Lemma get_model_config_spec id :
  outcome (Models.get_model_config w id) =
  let cfg := AutoConfig_from_pretrained w id in
  if PyStr.startswith (model_type cfg) "gemma" then
    outcome (Models.BaseModel__init__ w Models.GemmaModel id cfg)
  else if PyStr.startswith (model_type cfg) "cohere" then
    outcome (Models.BaseModel__init__ w Models.CohereModel id cfg)
  else if PyStr.startswith (model_type cfg) "qwen" then
    outcome (Models.BaseModel__init__ w Models.QwenModel id cfg)
  else inl (Exception ("Unsupported model type: " ++ id)).
Proof.
  unfold Models.get_model_config. cbv zeta.
  repeat (rewrite outcome_if). reflexivity.
Qed.

Lemma get_model_config_known id :
  known_family (model_type (AutoConfig_from_pretrained w id)) = true ->
  exists m,
    outcome (Models.get_model_config w id) = inr m /\
    Models.cls m <> Models.BaseModel /\
    Models.base_model_id m = id /\
    Models.config m = AutoConfig_from_pretrained w id /\
    Models.tokenizer m = AutoTokenizer_from_pretrained w id /\
    (PyStr.startswith (model_type (Models.config m)) "gemma" = true ->
       Models.cls m = Models.GemmaModel) /\
    (PyStr.startswith (model_type (Models.config m)) "cohere" = true ->
       Models.cls m = Models.CohereModel) /\
    (PyStr.startswith (model_type (Models.config m)) "qwen" = true ->
       Models.cls m = Models.QwenModel).
Proof.
  intros Hk%known_family_cases. rewrite get_model_config_spec. cbv zeta.
  rewrite !BaseModel__init__spec.
  set (mt := model_type (AutoConfig_from_pretrained w id)) in *.
  destruct (PyStr.startswith mt "gemma") eqn:Hg.
  { eexists; split; [reflexivity |]; cbn; fold mt.
    rewrite (startswith_gemma_cohere _ Hg), (startswith_gemma_qwen _ Hg).
    repeat split; congruence. }
  destruct (PyStr.startswith mt "cohere") eqn:Hc.
  { eexists; split; [reflexivity |]; cbn; fold mt.
    rewrite Hg, Hc, (startswith_cohere_qwen _ Hc). repeat split; congruence. }
  destruct (PyStr.startswith mt "qwen") eqn:Hq.
  { eexists; split; [reflexivity |]; cbn; fold mt.
    rewrite Hg, Hc, Hq. repeat split; congruence. }
  destruct Hk as [? | [? | ?]]; discriminate.
Qed.

Lemma get_model_config_unknown id :
  known_family (model_type (AutoConfig_from_pretrained w id)) = false ->
  Models.get_model_config w id =
  (inl (Exception ("Unsupported model type: " ++ id)), []).
Proof.
  intros (Hg & Hc & Hq)%unknown_family_cases.
  unfold Models.get_model_config. cbv zeta. now rewrite Hg, Hc, Hq.
Qed.

(** Whatever the registry returns is an instance of a subclass. *)
Lemma get_model_config_subclass id m :
  outcome (Models.get_model_config w id) = inr m ->
  Models.cls m <> Models.BaseModel /\
  known_family (model_type (AutoConfig_from_pretrained w id)) = true.
Proof.
  intros Hm.
  destruct (known_family (model_type (AutoConfig_from_pretrained w id))) eqn:Hk.
  - destruct (get_model_config_known id Hk) as (m' & Hm' & Hcls & _).
    split; [congruence | reflexivity].
  - rewrite (get_model_config_unknown id Hk) in Hm. discriminate.
Qed.

End Registry.

(** ** Prompt formatting *)

(** The prompt is a function of the class of the strategy and of the three
    fields of the record, and of nothing else. *)
Lemma prepare_chat_template_ext (m1 m2 : Models.ModelConfig) (r1 r2 : Record_) :
  Models.cls m1 = Models.cls m2 ->
  r1 !! "instruct" = r2 !! "instruct" ->
  r1 !! "input" = r2 !! "input" ->
  r1 !! "output" = r2 !! "output" ->
  Models.prepare_chat_template m1 r1 = Models.prepare_chat_template m2 r2.
Proof.
  intros Hc Hi Hn Ho. unfold Models.prepare_chat_template, Models.getitem.
  now rewrite Hc, Hi, Hn, Ho.
Qed.

Lemma prepare_chat_template_roles (m : Models.ModelConfig) (r : Record_) :
  instruction_record r ->
  Models.cls m <> Models.BaseModel ->
  exists chat,
    Models.prepare_chat_template m r = inr (Some chat) /\
    Models.roles chat =
      match Models.cls m with
      | Models.GemmaModel => ["user"; "assistant"]
      | _ => ["system"; "user"; "assistant"]
      end.
Proof.
  intros ([i Hi] & [n Hn] & [o Ho]) Hcls.
  unfold Models.prepare_chat_template, Models.getitem. rewrite Hi, Hn, Ho.
  destruct (Models.cls m); [contradiction | ..];
    (eexists; split; [reflexivity | reflexivity]).
Qed.

(** A strategy of a subclass asks every record for its instruction. *)
Lemma prepare_chat_template_needs_instruct (m : Models.ModelConfig) (r : Record_) :
  Models.cls m <> Models.BaseModel ->
  r !! "instruct" = None ->
  Models.prepare_chat_template m r = inl (KeyError "instruct").
Proof.
  intros Hcls Hi. unfold Models.prepare_chat_template, Models.getitem.
  rewrite Hi. now destruct (Models.cls m).
Qed.

Lemma prepare_chat_template_returns (m : Models.ModelConfig) (r : Record_) chat :
  Models.cls m <> Models.BaseModel ->
  Models.prepare_chat_template m r = inr chat ->
  instruction_record r.
Proof.
  intros Hcls. unfold Models.prepare_chat_template, Models.getitem, instruction_record.
  destruct (r !! "instruct"), (r !! "input"), (r !! "output");
    destruct (Models.cls m); try contradiction; try discriminate; eauto.
Qed.

(** ** Construction of the tuner *)

Section Construction.
Variable w : World.

Lemma os_environ_visible_devices :
  Tuner.os_environ w !! "CUDA_VISIBLE_DEVICES" = environ w !! "CUDA_VISIBLE_DEVICES".
Proof. unfold Tuner.os_environ. now apply lookup_insert_ne. Qed.

Lemma print_devices_returns i ds : outcome (Tuner.print_devices i ds) = inr tt.
Proof.
  revert i; induction ds as [| d ds IH]; intros i; [reflexivity |].
  cbn [Tuner.print_devices]. outcomes. apply IH.
Qed.

Lemma print_cuda_info_present v :
  environ w !! "CUDA_VISIBLE_DEVICES" = Some v ->
  outcome (Tuner.print_cuda_info w) = inr tt /\
  exists rest,
    trace (Tuner.print_cuda_info w) = Info ("visible_devices: " ++ v) :: rest.
Proof.
  intros Hv. unfold Tuner.print_cuda_info, Models.getitem.
  rewrite os_environ_visible_devices, Hv. split.
  - outcomes. apply print_devices_returns.
  - erewrite trace_bind_return by reflexivity.
    erewrite trace_bind_return by reflexivity. cbn. eauto.
Qed.

Lemma print_cuda_info_absent :
  environ w !! "CUDA_VISIBLE_DEVICES" = None ->
  Tuner.print_cuda_info w = (inl (KeyError "CUDA_VISIBLE_DEVICES"), []).
Proof.
  intros Hv. unfold Tuner.print_cuda_info, Models.getitem.
  now rewrite os_environ_visible_devices, Hv.
Qed.

(** The tuner that construction returns, field by field. *)
Lemma init_spec id enable_deepspeed v m :
  environ w !! "CUDA_VISIBLE_DEVICES" = Some v ->
  outcome (Models.get_model_config w id) = inr m ->
  let cuda := cuda_is_available w in
  let high := Nat.leb 8 (fst (cuda_device_capability w)) in
  outcome (Tuner.__init__ w id enable_deepspeed) =
  inr {|
    Tuner.base_model_id := id;
    Tuner.model_config := m;
    Tuner.tokenizer := Models.tokenizer m;
    Tuner.device_map := if cuda && enable_deepspeed then None else Some "auto";
    Tuner.deepspeed :=
      if cuda && enable_deepspeed then Some Tuner.get_deepspeed_config else None;
    Tuner.optim := if cuda && enable_deepspeed then "adamw_torch" else "adamw_8bit";
    Tuner.bf16 := negb cuda || high;
    Tuner.fp16 := cuda && negb high;
    Tuner.attn_implementation :=
      if cuda && high then
        Some (if PyStr.startswith (model_type (Models.config m)) "gemma"
              then "eager" else "flash_attention_2")
      else None;
    Tuner.max_len := None; Tuner.eval_strategy := None; Tuner.eval_steps := None
  |}.
Proof.
  intros Hv Hm. cbv zeta. unfold Tuner.__init__.
  rewrite outcome_bind. destruct (print_cuda_info_present v Hv) as [-> _].
  cbn [mbind result_bind]. rewrite outcome_bind, Hm. cbn [mbind result_bind].
  rewrite outcome_bind.
  destruct (cuda_is_available w), enable_deepspeed,
    (Nat.leb 8 (fst (cuda_device_capability w)));
    cbn -[PyStr.startswith Tuner.get_deepspeed_config];
    try destruct (PyStr.startswith (model_type (Models.config m)) "gemma");
    reflexivity.
Qed.

(** Construction returns a tuner as soon as the environment value is there
    and the family is known. *)
Lemma init_returns id enable_deepspeed v :
  environ w !! "CUDA_VISIBLE_DEVICES" = Some v ->
  known_family (model_type (AutoConfig_from_pretrained w id)) = true ->
  exists m t,
    outcome (Models.get_model_config w id) = inr m /\
    Models.config m = AutoConfig_from_pretrained w id /\
    outcome (Tuner.__init__ w id enable_deepspeed) = inr t /\
    Tuner.model_config t = m.
Proof.
  intros Hv Hk. destruct (get_model_config_known w id Hk) as (m & Hm & _ & _ & Hc & _).
  exists m. eexists. split; [exact Hm |]. split; [exact Hc |].
  split; [apply (init_spec id enable_deepspeed v m Hv Hm) | reflexivity].
Qed.

Lemma init_trace_prefix id enable_deepspeed :
  exists rest,
    trace (Tuner.__init__ w id enable_deepspeed) =
    trace (Tuner.print_cuda_info w) ++ rest.
Proof.
  unfold Tuner.__init__.
  destruct (outcome (Tuner.print_cuda_info w)) as [e | a] eqn:Ho.
  - erewrite trace_bind_raise by exact Ho. exists []. now rewrite app_nil_r.
  - erewrite trace_bind_return by exact Ho. eauto.
Qed.

End Construction.

(** ** The decision table of the configuration builder *)

(** C1 (as the code has it). Construction selects the distributed optimizer
    "adamw_torch" and the offload block exactly when an accelerator is
    present and distributed mode is requested, at any capability; with no
    accelerator, or distributed mode not requested, it keeps the default
    optimizer and produces no offload block. *)
Theorem C1_distributed_iff_accelerator_and_request
    (w : World) (id : string) (enable_deepspeed : bool) (v : string) :
  environ w !! "CUDA_VISIBLE_DEVICES" = Some v ->
  known_family (model_type (AutoConfig_from_pretrained w id)) = true ->
  exists t,
    outcome (Tuner.__init__ w id enable_deepspeed) = inr t /\
    (cuda_is_available w = true /\ enable_deepspeed = true ->
       Tuner.deepspeed t = Some Tuner.get_deepspeed_config /\
       Tuner.optim t = "adamw_torch") /\
    (cuda_is_available w = false \/ enable_deepspeed = false ->
       Tuner.deepspeed t = None /\ Tuner.optim t = "adamw_8bit").
Proof.
  intros Hv Hk.
  destruct (init_returns w id enable_deepspeed v Hv Hk) as (m & t & Hm & _ & Ht & _).
  exists t. split; [exact Ht |].
  rewrite (init_spec w id enable_deepspeed v m Hv Hm) in Ht.
  apply inr_eq in Ht. subst t. cbn. split.
  - intros [-> ->]. now split.
  - intros [-> | ->]; [| rewrite andb_false_r]; now split.
Qed.

(** C1, the claim as written fails: an accelerator of capability 7 with
    distributed mode requested gets the distributed optimizer and the
    offload block. *)
Lemma C1_low_capability_gets_offload :
  let w := Samples.world Samples.env true 7 "gemma" Samples.instruct_dataset in
  cuda_is_available w = true /\
  fst (cuda_device_capability w) < 8 /\
  exists t,
    outcome (Tuner.__init__ w "m" true) = inr t /\
    Tuner.deepspeed t = Some Tuner.get_deepspeed_config /\
    Tuner.optim t = "adamw_torch" /\
    Tuner.deepspeed t <> None.
Proof.
  cbv zeta. split; [reflexivity |]. split; [cbn; lia |].
  eexists. split; [vm_compute; reflexivity |]. cbn.
  repeat split; discriminate.
Qed.

(** C2. With no accelerator, construction selects bf16 without fp16 and the
    default optimizer "adamw_8bit" for every known family, and the derived
    hyperparameters are the same for any two families. *)
Theorem C2_no_accelerator
    (w : World) (id1 id2 : string) (enable_deepspeed : bool) (v : string) :
  environ w !! "CUDA_VISIBLE_DEVICES" = Some v ->
  known_family (model_type (AutoConfig_from_pretrained w id1)) = true ->
  known_family (model_type (AutoConfig_from_pretrained w id2)) = true ->
  cuda_is_available w = false ->
  exists t1 t2,
    outcome (Tuner.__init__ w id1 enable_deepspeed) = inr t1 /\
    outcome (Tuner.__init__ w id2 enable_deepspeed) = inr t2 /\
    Tuner.bf16 t1 = true /\ Tuner.fp16 t1 = false /\
    Tuner.optim t1 = "adamw_8bit" /\
    hyperparameters t1 = (Some "auto", None, "adamw_8bit", true, false, None) /\
    hyperparameters t1 = hyperparameters t2.
Proof.
  intros Hv Hk1 Hk2 Hcuda.
  destruct (init_returns w id1 enable_deepspeed v Hv Hk1) as (m1 & t1 & Hm1 & _ & Ht1 & _).
  destruct (init_returns w id2 enable_deepspeed v Hv Hk2) as (m2 & t2 & Hm2 & _ & Ht2 & _).
  exists t1, t2. split; [exact Ht1 |]. split; [exact Ht2 |].
  rewrite (init_spec w id1 enable_deepspeed v m1 Hv Hm1) in Ht1.
  rewrite (init_spec w id2 enable_deepspeed v m2 Hv Hm2) in Ht2.
  apply inr_eq in Ht1, Ht2. subst t1 t2.
  unfold hyperparameters. cbn. rewrite Hcuda. cbn. repeat split.
Qed.

(** C3 (as the code has it). Construction begins with the informational
    dump. When the accelerator-visibility value is absent the dump fails with
    a key error and construction ends there: nothing is logged, no family is
    dispatched, no hyperparameter is derived. When the value is present the
    dump returns and the value is the first line logged. *)
Theorem C3_visibility_value
    (w : World) (id : string) (enable_deepspeed : bool) :
  (environ w !! "CUDA_VISIBLE_DEVICES" = None ->
     Tuner.print_cuda_info w = (inl (KeyError "CUDA_VISIBLE_DEVICES"), []) /\
     Tuner.__init__ w id enable_deepspeed =
       (inl (KeyError "CUDA_VISIBLE_DEVICES"), [])) /\
  (forall v, environ w !! "CUDA_VISIBLE_DEVICES" = Some v ->
     outcome (Tuner.print_cuda_info w) = inr tt /\
     exists rest,
       trace (Tuner.__init__ w id enable_deepspeed) =
       Info ("visible_devices: " ++ v) :: rest).
Proof.
  split.
  - intros Hv. pose proof (print_cuda_info_absent w Hv) as Hp.
    split; [exact Hp |]. unfold Tuner.__init__. now rewrite Hp.
  - intros v Hv. destruct (print_cuda_info_present w v Hv) as [Ho [rest Hr]].
    split; [exact Ho |].
    destruct (init_trace_prefix w id enable_deepspeed) as [rest' ->].
    rewrite Hr. cbn. eauto.
Qed.

(** C3, the claim as written fails: with the value absent, construction for
    a known family raises the key error and returns no tuner, although the
    registry alone would have returned the strategy. *)
Lemma C3_absent_value_aborts_construction :
  let w := Samples.world ∅ true 8 "gemma" Samples.instruct_dataset in
  environ w !! "CUDA_VISIBLE_DEVICES" = None /\
  (exists m, outcome (Models.get_model_config w "m") = inr m) /\
  outcome (Tuner.__init__ w "m" true) = inl (KeyError "CUDA_VISIBLE_DEVICES") /\
  ~ exists t, outcome (Tuner.__init__ w "m" true) = inr t.
Proof.
  cbv zeta. split; [reflexivity |]. split; [eexists; vm_compute; reflexivity |].
  split; [reflexivity |]. intros [t Ht]. vm_compute in Ht. discriminate.
Qed.

(** C7. With an accelerator of capability 8 or more the attention hint is
    "eager" for a gemma model type and "flash_attention_2" for every other
    known family, so the two differ; with no accelerator, or a lower
    capability, no hint is set. *)
Theorem C7_attention_hint
    (w : World) (id id' : string) (enable_deepspeed : bool) (v : string) :
  environ w !! "CUDA_VISIBLE_DEVICES" = Some v ->
  known_family (model_type (AutoConfig_from_pretrained w id)) = true ->
  known_family (model_type (AutoConfig_from_pretrained w id')) = true ->
  exists t t',
    outcome (Tuner.__init__ w id enable_deepspeed) = inr t /\
    outcome (Tuner.__init__ w id' enable_deepspeed) = inr t' /\
    (cuda_is_available w = true /\ 8 <= fst (cuda_device_capability w) ->
       (PyStr.startswith (model_type (AutoConfig_from_pretrained w id)) "gemma" = true ->
          Tuner.attn_implementation t = Some "eager") /\
       (PyStr.startswith (model_type (AutoConfig_from_pretrained w id)) "gemma" = false ->
          Tuner.attn_implementation t = Some "flash_attention_2") /\
       (PyStr.startswith (model_type (AutoConfig_from_pretrained w id)) "gemma" = true ->
        PyStr.startswith (model_type (AutoConfig_from_pretrained w id')) "gemma" = false ->
          Tuner.attn_implementation t <> Tuner.attn_implementation t')) /\
    (cuda_is_available w = false \/ fst (cuda_device_capability w) < 8 ->
       Tuner.attn_implementation t = None).
Proof.
  intros Hv Hk Hk'.
  destruct (init_returns w id enable_deepspeed v Hv Hk) as (m & t & Hm & Hc & Ht & _).
  destruct (init_returns w id' enable_deepspeed v Hv Hk') as (m' & t' & Hm' & Hc' & Ht' & _).
  exists t, t'. split; [exact Ht |]. split; [exact Ht' |].
  rewrite (init_spec w id enable_deepspeed v m Hv Hm) in Ht.
  rewrite (init_spec w id' enable_deepspeed v m' Hv Hm') in Ht'.
  apply inr_eq in Ht, Ht'. subst t t'.
  cbn -[Nat.leb PyStr.startswith]. rewrite Hc, Hc'. split.
  - intros [-> Hhigh%Nat.leb_le]. rewrite Hhigh. cbn -[PyStr.startswith].
    repeat split; intros ->; try reflexivity. intros ->. discriminate.
  - intros [-> | Hlow]; [reflexivity |].
    apply Nat.leb_gt in Hlow. rewrite Hlow. now rewrite andb_false_r.
Qed.

(** C8. With an accelerator of capability 8 or more and distributed mode
    disabled, construction selects bf16 (and not fp16) and produces no offload
    block. *)
Theorem C8_high_capability_not_distributed
    (w : World) (id : string) (v : string) :
  environ w !! "CUDA_VISIBLE_DEVICES" = Some v ->
  known_family (model_type (AutoConfig_from_pretrained w id)) = true ->
  cuda_is_available w = true ->
  8 <= fst (cuda_device_capability w) ->
  exists t,
    outcome (Tuner.__init__ w id false) = inr t /\
    Tuner.bf16 t = true /\ Tuner.fp16 t = false /\ Tuner.deepspeed t = None.
Proof.
  intros Hv Hk Hcuda Hhigh%Nat.leb_le.
  destruct (init_returns w id false v Hv Hk) as (m & t & Hm & _ & Ht & _).
  exists t. split; [exact Ht |].
  rewrite (init_spec w id false v m Hv Hm) in Ht. apply inr_eq in Ht. subst t.
  cbn -[Nat.leb]. rewrite Hcuda, Hhigh. repeat split.
Qed.

(** ** The registry and its strategies *)

Lemma BaseModel__init__trace (w : World) c id cfg :
  length (trace (Models.BaseModel__init__ w c id cfg)) = 3.
Proof.
  unfold Models.BaseModel__init__.
  repeat (destruct (PyStr.truthy _)); reflexivity.
Qed.

(** C4. When the model type of an identifier starts with none of "gemma",
    "cohere", "qwen", the registry raises the exception "Unsupported model
    type: " followed by the identifier, having built and logged nothing, and
    construction of a tuner passes the exception on; when it starts with one
    of them the registry returns a strategy of the matching subclass (whose
    construction logs its three token lines). *)
Theorem C4_registry_dispatch
    (w : World) (id : string) (enable_deepspeed : bool) (v : string) :
  let mt := model_type (AutoConfig_from_pretrained w id) in
  (known_family mt = false ->
     Models.get_model_config w id =
       (inl (Exception ("Unsupported model type: " ++ id)), []) /\
     (environ w !! "CUDA_VISIBLE_DEVICES" = Some v ->
        outcome (Tuner.__init__ w id enable_deepspeed) =
        inl (Exception ("Unsupported model type: " ++ id)))) /\
  (known_family mt = true ->
     exists m,
       outcome (Models.get_model_config w id) = inr m /\
       length (trace (Models.get_model_config w id)) = 3 /\
       Models.cls m <> Models.BaseModel /\
       Models.base_model_id m = id /\
       (PyStr.startswith mt "gemma" = true -> Models.cls m = Models.GemmaModel) /\
       (PyStr.startswith mt "cohere" = true -> Models.cls m = Models.CohereModel) /\
       (PyStr.startswith mt "qwen" = true -> Models.cls m = Models.QwenModel)).
Proof.
  cbv zeta. split.
  - intros Hk. pose proof (get_model_config_unknown w id Hk) as Hu.
    split; [exact Hu |]. intros Hv. unfold Tuner.__init__.
    rewrite outcome_bind. destruct (print_cuda_info_present w v Hv) as [-> _].
    cbn [mbind result_bind]. now rewrite outcome_bind, Hu.
  - intros Hk.
    destruct (get_model_config_known w id Hk)
      as (m & Hm & Hcls & Hid & Hc & _ & Hg & Hco & Hq).
    exists m. rewrite Hc in Hg, Hco, Hq. repeat split; try assumption.
    apply known_family_cases in Hk. unfold Models.get_model_config. cbv zeta.
    destruct (PyStr.startswith _ "gemma"); [apply BaseModel__init__trace |].
    destruct (PyStr.startswith _ "cohere"); [apply BaseModel__init__trace |].
    destruct (PyStr.startswith _ "qwen"); [apply BaseModel__init__trace |].
    destruct Hk as [? | [? | ?]]; discriminate.
Qed.

(** C5 (as the code has it). For every known family and every Record that
    carries the instruct, input and output fields, the strategy of the
    registry formats it into a prompt whose roles are user, assistant for
    gemma and system, user, assistant for cohere and for qwen. *)
Theorem C5_roles_by_family
    (w : World) (id : string) (m : Models.ModelConfig) (r : Record_) :
  outcome (Models.get_model_config w id) = inr m ->
  instruction_record r ->
  let mt := model_type (AutoConfig_from_pretrained w id) in
  exists chat,
    Models.prepare_chat_template m r = inr (Some chat) /\
    (PyStr.startswith mt "gemma" = true ->
       Models.roles chat = ["user"; "assistant"]) /\
    (PyStr.startswith mt "cohere" = true ->
       Models.roles chat = ["system"; "user"; "assistant"]) /\
    (PyStr.startswith mt "qwen" = true ->
       Models.roles chat = ["system"; "user"; "assistant"]).
Proof.
  intros Hm Hr. cbv zeta.
  destruct (get_model_config_subclass w id m Hm) as [Hcls Hk].
  destruct (get_model_config_known w id Hk)
    as (m' & Hm' & _ & _ & Hc & _ & Hg & Hco & Hq).
  assert (m' = m) as -> by congruence. rewrite Hc in Hg, Hco, Hq.
  destruct (prepare_chat_template_roles m r Hr Hcls) as (chat & Hchat & Hroles).
  exists chat. split; [exact Hchat |].
  repeat split; intros Hp; rewrite Hroles;
    [rewrite (Hg Hp) | rewrite (Hco Hp) | rewrite (Hq Hp)]; reflexivity.
Qed.

(** C5, the claim as written fails: a Record that only has the pre-formatted
    text field gets no prompt from the gemma strategy, but a key error. *)
Lemma C5_text_record_has_no_prompt :
  exists m,
    Samples.strategy "gemma" = inr m /\
    Models.prepare_chat_template m Samples.text_row = inl (KeyError "instruct") /\
    ~ exists chat, Models.prepare_chat_template m Samples.text_row = inr (Some chat).
Proof.
  eexists. split; [vm_compute; reflexivity |].
  split; [reflexivity |]. intros [chat Hchat]. discriminate.
Qed.

(** C10. Formatting is deterministic: two strategies of the same family,
    whatever model and tokenizer each was built for, applied to identical
    Records give identical results, role for role and content for content. *)
Theorem C10_formatting_deterministic
    (w1 w2 : World) (id1 id2 : string) (m1 m2 : Models.ModelConfig)
    (r1 r2 : Record_) :
  outcome (Models.get_model_config w1 id1) = inr m1 ->
  outcome (Models.get_model_config w2 id2) = inr m2 ->
  Models.cls m1 = Models.cls m2 ->
  r1 = r2 ->
  Models.prepare_chat_template m1 r1 = Models.prepare_chat_template m2 r2.
Proof.
  intros _ _ Hcls ->. now apply prepare_chat_template_ext.
Qed.

(** ** Supervised fine-tuning *)

Lemma row_wf_lookup (cols : list string) (r : Record_) (k : string) :
  row_wf cols r = true -> k ∉ cols -> r !! k = None.
Proof.
  unfold row_wf. intros Hd%bool_decide_eq_true Hk.
  apply not_elem_of_dom. rewrite Hd, elem_of_list_to_set. exact Hk.
Qed.

Lemma row_wf_column (cols : list string) (r : Record_) (k : string) :
  row_wf cols r = true -> is_Some (r !! k) -> k ∈ cols.
Proof.
  unfold row_wf. intros Hd%bool_decide_eq_true Hk%elem_of_dom.
  now rewrite Hd, elem_of_list_to_set in Hk.
Qed.

Lemma remove_columns_returns (d : Dataset) (names : list string) :
  (forall c, c ∈ names -> c ∈ column_names d) ->
  exists d', Datasets.remove_columns d names = inr d'.
Proof.
  intros Hsub. unfold Datasets.remove_columns.
  destruct (forallb _ names) eqn:Hall; [eauto |].
  apply not_true_iff_false in Hall. exfalso; apply Hall.
  apply forallb_forall. intros c Hc%list_elem_of_In.
  apply bool_decide_eq_true. auto.
Qed.

Lemma remove_columns_columns (d d' : Dataset) (names : list string) (c : string) :
  Datasets.remove_columns d names = inr d' ->
  c ∈ column_names d' <-> c ∈ column_names d /\ c ∉ names.
Proof.
  unfold Datasets.remove_columns. destruct (forallb _ names); [| discriminate].
  intros [= <-]. cbn. rewrite list_elem_of_filter. tauto.
Qed.

Lemma getattr_response_template (m : Models.ModelConfig) :
  Models.getattr m "response_template" =
  inl (AttributeError (Models.class_name (Models.cls m)) "response_template").
Proof. destruct m as [c ? ? ? ?]. destruct c; reflexivity. Qed.

Section Sft.
Variable w : World.

Lemma sft_train_comp_only self d lr adapter o :
  Tuner.comp_only o = true ->
  outcome (Tuner.sft_train w self d lr adapter o) =
  inl (AttributeError (Models.class_name (Models.cls (Tuner.model_config self)))
         "response_template").
Proof.
  intros Hc. unfold Tuner.sft_train. rewrite Hc. outcomes.
  now rewrite getattr_response_template.
Qed.

Lemma sft_train_unbound self d adapter o :
  Tuner.comp_only o = false ->
  Tuner.do_eval o = false \/ (exists p, train_test_split w d = inr p) ->
  outcome (Tuner.sft_train w self d None adapter o) =
  inl (UnboundLocalError "lr_scheduler_type").
Proof.
  intros Hc Hsplit. unfold Tuner.sft_train, Tuner.prepare_datasets.
  rewrite Hc. outcomes.
  destruct (Tuner.do_eval o).
  - destruct Hsplit as [? | [[tr ev] Hp]]; [discriminate |].
    rewrite Hp. outcomes. reflexivity.
  - outcomes. reflexivity.
Qed.

Lemma sft_stages self dataset adapter o :
  outcome (Tuner.sft w self dataset adapter o) =
  outcome (Tuner.sft_tokenize w self dataset o) ≫= fun '(self', d) =>
  Tuner.sft_select_scheduler d ≫= fun '(d', lr) =>
  outcome (Tuner.sft_train w self' d' lr adapter o).
Proof.
  unfold Tuner.sft. rewrite outcome_bind.
  destruct (outcome (Tuner.sft_tokenize w self dataset o)) as [e | [self' d]];
    [reflexivity |].
  cbn [mbind result_bind]. rewrite outcome_bind, outcome_lift.
  destruct (Tuner.sft_select_scheduler d) as [e | [d' lr]]; reflexivity.
Qed.

End Sft.

(** Read a successful outcome backwards, one bind at a time. *)
Ltac outcomes_in H :=
  repeat progress
    (repeat first
       [ rewrite outcome_bind in H | rewrite outcome_mret in H
       | rewrite outcome_emit in H | rewrite outcome_lift in H
       | rewrite outcome_raise in H | rewrite outcome_if in H ];
     cbn [mbind result_bind] in H).

Section Tokenize.
Variable w : World.

(** Tokenizing changes nothing of the tuner but [max_len]. *)
Lemma sft_tokenize_tuner self dataset o self' d :
  outcome (Tuner.sft_tokenize w self dataset o) = inr (self', d) ->
  exists n, self' = Tuner.set_max_len n self.
Proof.
  unfold Tuner.sft_tokenize. cbv zeta. intros H. outcomes_in H.
  apply result_bind_inr in H as (inputs & _ & H). outcomes_in H.
  apply result_bind_inr in H as (n & _ & H). outcomes_in H.
  apply result_bind_inr in H as (example & _ & H). outcomes_in H.
  apply result_bind_inr in H as (kept & _ & H). outcomes_in H.
  apply result_bind_inr in H as (encs & _ & H). outcomes_in H.
  apply result_bind_inr in H as (ids & _ & H). outcomes_in H.
  exists n. congruence.
Qed.

(** A well-formed dataset without an instruct column does not get through
    tokenization: formatting its first record raises the key error, and with
    no record at all the length percentile or the example row fails. *)
Lemma sft_tokenize_needs_instruct self dataset o :
  Models.cls (Tuner.model_config self) <> Models.BaseModel ->
  dataset_wf (load_dataset w dataset) = true ->
  "instruct" ∉ column_names (load_dataset w dataset) ->
  (exists e, outcome (Tuner.sft_tokenize w self dataset o) = inl e) /\
  (rows (load_dataset w dataset) <> [] ->
     outcome (Tuner.sft_tokenize w self dataset o) = inl (KeyError "instruct")).
Proof.
  intros Hcls Hwf Hcol. unfold Tuner.sft_tokenize. cbv zeta.
  rewrite outcome_bind, outcome_lift.
  destruct (rows (load_dataset w dataset)) as [| r rs] eqn:Hrows.
  - split; [| congruence]. cbn [mapM mret result_ret mbind result_bind].
    rewrite outcome_bind, outcome_lift.
    destruct (np_percentile_int w _ _) as [e | n]; [eauto |].
    outcomes. unfold Datasets.first_row. rewrite Hrows. eauto.
  - assert (Tuner.get_instruction self r = inl (KeyError "instruct")) as Hr.
    { unfold Tuner.get_instruction, Models.apply_chat_template.
      rewrite prepare_chat_template_needs_instruct; [reflexivity | exact Hcls |].
      unfold dataset_wf in Hwf. rewrite Hrows in Hwf. cbn in Hwf.
      apply andb_true_iff in Hwf as [Hwf _].
      exact (row_wf_lookup _ _ _ Hwf Hcol). }
    cbn [mapM]. rewrite Hr. split; [eauto | reflexivity].
Qed.

End Tokenize.

(** C6 (as the code has it). With the completion-only toggle on, sft never
    reaches the trainer: it fails for every tuner and every dataset. Whenever
    the dataset gets through tokenization and column selection, the failure
    is the attribute error for [response_template], which no strategy class
    defines; a dataset that does not get that far fails earlier, with the
    error of that stage. *)
Theorem C6_completion_only_never_trains
    (w : World) (self : Tuner.Tuner) (dataset adapter : string)
    (o : Tuner.SftOptions) :
  Tuner.comp_only o = true ->
  (exists e, outcome (Tuner.sft w self dataset adapter o) = inl e) /\
  (forall e,
     outcome (Tuner.sft_tokenize w self dataset o) = inl e ->
     outcome (Tuner.sft w self dataset adapter o) = inl e) /\
  (forall self' d e,
     outcome (Tuner.sft_tokenize w self dataset o) = inr (self', d) ->
     Tuner.sft_select_scheduler d = inl e ->
     outcome (Tuner.sft w self dataset adapter o) = inl e) /\
  (forall self' d d' lr,
     outcome (Tuner.sft_tokenize w self dataset o) = inr (self', d) ->
     Tuner.sft_select_scheduler d = inr (d', lr) ->
     outcome (Tuner.sft w self dataset adapter o) =
     inl (AttributeError
            (Models.class_name (Models.cls (Tuner.model_config self)))
            "response_template")) /\
  (forall c, In c [Models.BaseModel; Models.GemmaModel; Models.CohereModel;
                   Models.QwenModel] ->
     ~ In "response_template" (Models.class_dict c)).
Proof.
  intros Hc. rewrite sft_stages. repeat split.
  - destruct (outcome (Tuner.sft_tokenize w self dataset o)) as [e | [self' d]];
      [eauto |]. cbn [mbind result_bind].
    destruct (Tuner.sft_select_scheduler d) as [e | [d' lr]]; [eauto |].
    cbn [mbind result_bind]. rewrite sft_train_comp_only by exact Hc. eauto.
  - intros e Htok. now rewrite Htok.
  - intros self' d e Htok Hsel. rewrite Htok. cbn [mbind result_bind].
    now rewrite Hsel.
  - intros self' d d' lr Htok Hsel. rewrite Htok. cbn [mbind result_bind].
    rewrite Hsel. cbn [mbind result_bind].
    rewrite sft_train_comp_only by exact Hc.
    apply sft_tokenize_tuner in Htok as [n ->]. reflexivity.
  - intros c Hin Hdef. cbn in Hin.
    destruct Hin as [<- | [<- | [<- | [<- | []]]]]; cbn in Hdef;
      repeat (destruct Hdef as [Hdef | Hdef]; [discriminate |]); exact Hdef.
Qed.

(** C6, the claim as written fails: on a dataset that has only a text
    column, sft with the completion-only toggle on fails with the key error
    of the first record, not with an attribute error. *)
Lemma C6_text_dataset_key_error :
  let w := Samples.world Samples.env true 8 "gemma" Samples.text_dataset in
  Tuner.comp_only Samples.completion_only = true /\
  exists self,
    outcome (Tuner.__init__ w "m" true) = inr self /\
    outcome (Tuner.sft w self "d" "out" Samples.completion_only) =
      inl (KeyError "instruct") /\
    forall obj attr,
      outcome (Tuner.sft w self "d" "out" Samples.completion_only) <>
      inl (AttributeError obj attr).
Proof.
  cbv zeta. split; [reflexivity |].
  eexists. split; [vm_compute; reflexivity |].
  split; [vm_compute; reflexivity |].
  intros obj attr H. vm_compute in H. discriminate.
Qed.

(** ** The scheduler type *)

Lemma three_columns (cols : list string) (c : string) :
  "instruct" ∈ cols -> "input" ∈ cols -> "output" ∈ cols ->
  c ∈ ["instruct"; "input"; "output"] -> c ∈ cols.
Proof.
  intros Hi Hn Ho Hc.
  repeat (apply elem_of_cons in Hc as [-> | Hc]; [assumption |]).
  now apply elem_of_nil in Hc.
Qed.

Lemma select_text_only (d : Dataset) :
  "text" ∈ column_names d -> "instruct" ∉ column_names d ->
  exists d', Tuner.sft_select_scheduler d = inr (d', Some "constant").
Proof.
  intros Ht Hi. unfold Tuner.sft_select_scheduler.
  rewrite (bool_decide_eq_true_2 _ Ht).
  destruct (remove_columns_returns d ["text"]) as [d1 Hd1].
  { intros c Hc. apply elem_of_cons in Hc as [-> | Hc]; [assumption |].
    now apply elem_of_nil in Hc. }
  rewrite Hd1. cbn [mbind result_bind mret result_ret].
  rewrite bool_decide_eq_false_2; [eauto |].
  intros Hin. apply (remove_columns_columns _ _ _ _ Hd1) in Hin. tauto.
Qed.

Lemma select_instruct (d : Dataset) :
  "instruct" ∈ column_names d ->
  (forall d' lr, Tuner.sft_select_scheduler d = inr (d', lr) -> lr = Some "linear") /\
  ("input" ∈ column_names d -> "output" ∈ column_names d ->
     exists d', Tuner.sft_select_scheduler d = inr (d', Some "linear")).
Proof.
  intros Hi. unfold Tuner.sft_select_scheduler.
  destruct (bool_decide ("text" ∈ column_names d)) eqn:Ht.
  - apply bool_decide_eq_true in Ht.
    destruct (remove_columns_returns d ["text"]) as [d1 Hd1].
    { intros c Hc. apply elem_of_cons in Hc as [-> | Hc]; [assumption |].
      now apply elem_of_nil in Hc. }
    rewrite Hd1. cbn [mbind result_bind mret result_ret].
    assert (forall c, c ∈ column_names d -> c <> "text" -> c ∈ column_names d1)
      as Hkeep.
    { intros c Hc Hne. apply (remove_columns_columns _ _ _ _ Hd1).
      split; [assumption |]. rewrite not_elem_of_cons. split; [assumption |].
      apply not_elem_of_nil. }
    rewrite bool_decide_eq_true_2 by (apply Hkeep; [assumption | discriminate]).
    split.
    + intros d' lr H.
      destruct (Datasets.remove_columns d1 _) as [e | d2]; cbn in H;
        [discriminate | unfold mret, result_ret in H; congruence].
    + intros Hn Ho.
      destruct (remove_columns_returns d1 ["instruct"; "input"; "output"])
        as [d2 Hd2].
      { intros c. apply three_columns; apply Hkeep; (assumption || discriminate). }
      rewrite Hd2. eauto.
  - cbn [mbind result_bind mret result_ret].
    rewrite (bool_decide_eq_true_2 _ Hi). split.
    + intros d' lr H.
      destruct (Datasets.remove_columns d _) as [e | d2]; cbn in H;
        [discriminate | unfold mret, result_ret in H; congruence].
    + intros Hn Ho.
      destruct (remove_columns_returns d ["instruct"; "input"; "output"])
        as [d2 Hd2]; [intros c; now apply three_columns |].
      rewrite Hd2. eauto.
Qed.

Lemma select_neither (d : Dataset) :
  "text" ∉ column_names d -> "instruct" ∉ column_names d ->
  Tuner.sft_select_scheduler d = inr (d, None).
Proof.
  intros Ht Hi. unfold Tuner.sft_select_scheduler.
  rewrite (bool_decide_eq_false_2 _ Ht). cbn [mbind result_bind mret result_ret].
  now rewrite (bool_decide_eq_false_2 _ Hi).
Qed.

(** C9 (as the code has it). The selection step of sft binds the scheduler
    type to "constant" for column names with text and without instruct, to
    "linear" for column names with instruct, and leaves it unbound with
    neither; reached with neither and with the completion-only toggle off,
    the later stage raises the unbound-variable error when it assembles the
    training arguments. A call of sft on a well-formed dataset with neither
    column does not get that far: it fails before the trainer, and with at
    least one record the failure is the key error for the instruct field of
    the first record. *)
Theorem C9_scheduler_type
    (w : World) (self : Tuner.Tuner) (dataset adapter : string)
    (d : Dataset) (o : Tuner.SftOptions) :
  ("text" ∈ column_names d -> "instruct" ∉ column_names d ->
     exists d', Tuner.sft_select_scheduler d = inr (d', Some "constant")) /\
  ("instruct" ∈ column_names d ->
     (forall d' lr,
        Tuner.sft_select_scheduler d = inr (d', lr) -> lr = Some "linear") /\
     ("input" ∈ column_names d -> "output" ∈ column_names d ->
        exists d', Tuner.sft_select_scheduler d = inr (d', Some "linear"))) /\
  ("text" ∉ column_names d -> "instruct" ∉ column_names d ->
     Tuner.sft_select_scheduler d = inr (d, None) /\
     (Tuner.comp_only o = false ->
      Tuner.do_eval o = false \/ (exists p, train_test_split w d = inr p) ->
        outcome (Tuner.sft_train w self d None adapter o) =
        inl (UnboundLocalError "lr_scheduler_type"))) /\
  (Models.cls (Tuner.model_config self) <> Models.BaseModel ->
   dataset_wf (load_dataset w dataset) = true ->
   "text" ∉ column_names (load_dataset w dataset) ->
   "instruct" ∉ column_names (load_dataset w dataset) ->
     (exists e, outcome (Tuner.sft w self dataset adapter o) = inl e) /\
     (rows (load_dataset w dataset) <> [] ->
        outcome (Tuner.sft w self dataset adapter o) = inl (KeyError "instruct"))).
Proof.
  split; [apply select_text_only |]. split; [apply select_instruct |]. split.
  - intros Ht Hi. split; [now apply select_neither |].
    apply sft_train_unbound.
  - intros Hcls Hwf _ Hi. rewrite sft_stages.
    destruct (sft_tokenize_needs_instruct w self dataset o Hcls Hwf Hi)
      as [[e He] Hrows].
    split; [exists e; now rewrite He |]. intros Hne. now rewrite (Hrows Hne).
Qed.

(** C9, the claim as written fails: on a dataset with neither a text nor an
    instruct column, sft fails with the key error of the first record and
    not with an unbound-variable error. *)
Lemma C9_neither_column_key_error :
  let w := Samples.world Samples.env true 8 "qwen2" Samples.other_dataset in
  ("text" ∉ column_names (load_dataset w "d")) /\
  ("instruct" ∉ column_names (load_dataset w "d")) /\
  exists self,
    outcome (Tuner.__init__ w "m" true) = inr self /\
    outcome (Tuner.sft w self "d" "out" Tuner.sft_defaults) =
      inl (KeyError "instruct") /\
    outcome (Tuner.sft w self "d" "out" Tuner.sft_defaults) <>
      inl (UnboundLocalError "lr_scheduler_type").
Proof.
  cbv zeta. split; [compute_done |]. split; [compute_done |].
  eexists. split; [vm_compute; reflexivity |].
  split; [vm_compute; reflexivity |]. intros H. vm_compute in H. discriminate.
Qed.

(** ** The properties at concrete inputs *)

(** A run of sft that reaches the trainer: an instruction dataset, the
    language-modeling collator, the "linear" scheduler. *)
Example sft_instruct_dataset_trains :
  exists self call,
    outcome (Tuner.sft
               (Samples.world Samples.env false 0 "qwen2" Samples.instruct_dataset)
               Samples.qwen_tuner "d" "out" Tuner.sft_defaults) =
      inr (self, call) /\
    dict_get "lr_scheduler_type" (Tuner.args call) = Some (PStr "linear") /\
    dict_get "optim" (Tuner.args call) = Some (PStr "adamw_8bit") /\
    Tuner.data_collator call = Tuner.DataCollatorForLanguageModeling /\
    column_names (Tuner.train_dataset call) = ["input_ids"; "attention_mask"].
Proof.
  eexists. eexists. split; [vm_compute; reflexivity |]. repeat split.
Qed.

Example strip_example :
  PyStr.strip (" Translate. " ++ Models.nl) = "Translate.".
Proof. reflexivity. Qed.

Example replace_example : PyStr.replace "<bos>" "" "<bos>a<bos><bos>b" = "ab".
Proof. reflexivity. Qed.

Example qwen_tuner_constructed :
  outcome (Tuner.__init__
             (Samples.world Samples.env false 0 "qwen2" Samples.other_dataset)
             "m" true) = inr Samples.qwen_tuner.
Proof. vm_compute. reflexivity. Qed.

Lemma C1_witness :
  let w := Samples.world Samples.env true 7 "gemma" Samples.instruct_dataset in
  exists t,
    outcome (Tuner.__init__ w "m" true) = inr t /\
    (cuda_is_available w = true /\ true = true ->
       Tuner.deepspeed t = Some Tuner.get_deepspeed_config /\
       Tuner.optim t = "adamw_torch") /\
    (cuda_is_available w = false \/ true = false ->
       Tuner.deepspeed t = None /\ Tuner.optim t = "adamw_8bit").
Proof.
  cbv zeta.
  apply (C1_distributed_iff_accelerator_and_request
           (Samples.world Samples.env true 7 "gemma" Samples.instruct_dataset)
           "m" true "0"); reflexivity.
Defined.

Lemma C2_witness :
  let w := Samples.world Samples.env false 0 "cohere" Samples.instruct_dataset in
  exists t1 t2,
    outcome (Tuner.__init__ w "a" true) = inr t1 /\
    outcome (Tuner.__init__ w "b" true) = inr t2 /\
    Tuner.bf16 t1 = true /\ Tuner.fp16 t1 = false /\
    Tuner.optim t1 = "adamw_8bit" /\
    hyperparameters t1 = (Some "auto", None, "adamw_8bit", true, false, None) /\
    hyperparameters t1 = hyperparameters t2.
Proof.
  cbv zeta.
  apply (C2_no_accelerator
           (Samples.world Samples.env false 0 "cohere" Samples.instruct_dataset)
           "a" "b" true "0"); reflexivity.
Defined.

Lemma C3_witness :
  Tuner.__init__ (Samples.world ∅ true 8 "gemma" Samples.instruct_dataset)
    "m" true = (inl (KeyError "CUDA_VISIBLE_DEVICES"), []) /\
  exists rest,
    trace (Tuner.__init__
             (Samples.world Samples.env true 8 "gemma" Samples.instruct_dataset)
             "m" true) = Info "visible_devices: 0" :: rest.
Proof.
  split.
  - apply (proj1 (C3_visibility_value
                    (Samples.world ∅ true 8 "gemma" Samples.instruct_dataset)
                    "m" true)). reflexivity.
  - apply (proj2 (C3_visibility_value
                    (Samples.world Samples.env true 8 "gemma"
                       Samples.instruct_dataset) "m" true) "0"). reflexivity.
Defined.

Lemma C4_witness :
  Models.get_model_config
    (Samples.world Samples.env false 0 "llama" Samples.instruct_dataset) "m" =
    (inl (Exception "Unsupported model type: m"), []) /\
  exists m,
    outcome (Models.get_model_config
               (Samples.world Samples.env false 0 "cohere2"
                  Samples.instruct_dataset) "m") = inr m /\
    Models.cls m <> Models.BaseModel.
Proof.
  split.
  - apply (proj1 (C4_registry_dispatch
                    (Samples.world Samples.env false 0 "llama"
                       Samples.instruct_dataset) "m" true "0")). reflexivity.
  - destruct (proj2 (C4_registry_dispatch
                       (Samples.world Samples.env false 0 "cohere2"
                          Samples.instruct_dataset) "m" true "0") eq_refl)
      as (m & Hm & _ & Hcls & _).
    exists m. split; [exact Hm | exact Hcls].
Defined.

Lemma C5_witness :
  exists chat,
    Models.prepare_chat_template
      (Tuner.model_config Samples.qwen_tuner) Samples.instruct_row =
      inr (Some chat) /\
    Models.roles chat = ["system"; "user"; "assistant"].
Proof.
  destruct (C5_roles_by_family
              (Samples.world Samples.env false 0 "qwen2" Samples.other_dataset)
              "m" (Tuner.model_config Samples.qwen_tuner) Samples.instruct_row)
    as (chat & Hchat & _ & _ & Hq).
  - vm_compute. reflexivity.
  - repeat split; eexists; vm_compute; reflexivity.
  - exists chat. split; [exact Hchat | apply Hq; reflexivity].
Defined.

Lemma C6_witness :
  outcome (Tuner.sft
             (Samples.world Samples.env false 0 "qwen2" Samples.instruct_dataset)
             Samples.qwen_tuner "d" "out" Samples.completion_only) =
  inl (AttributeError "QwenModel" "response_template").
Proof.
  destruct (C6_completion_only_never_trains
              (Samples.world Samples.env false 0 "qwen2" Samples.instruct_dataset)
              Samples.qwen_tuner "d" "out" Samples.completion_only eq_refl)
    as (_ & _ & _ & Hattr & _).
  eapply Hattr; vm_compute; reflexivity.
Defined.

Lemma C7_witness :
  let w := Samples.world Samples.env true 9 "gemma2" Samples.instruct_dataset in
  exists t, outcome (Tuner.__init__ w "m" false) = inr t /\
            Tuner.attn_implementation t = Some "eager".
Proof.
  cbv zeta.
  destruct (C7_attention_hint
              (Samples.world Samples.env true 9 "gemma2" Samples.instruct_dataset)
              "m" "m" false "0" eq_refl eq_refl eq_refl)
    as (t & t' & Ht & _ & Hhigh & _).
  exists t. split; [exact Ht |].
  apply Hhigh; [split; [reflexivity | cbn; lia] | reflexivity].
Defined.

Lemma C8_witness :
  let w := Samples.world Samples.env true 8 "qwen2" Samples.instruct_dataset in
  exists t,
    outcome (Tuner.__init__ w "m" false) = inr t /\
    Tuner.bf16 t = true /\ Tuner.fp16 t = false /\ Tuner.deepspeed t = None.
Proof.
  cbv zeta.
  apply (C8_high_capability_not_distributed
           (Samples.world Samples.env true 8 "qwen2" Samples.instruct_dataset)
           "m" "0"); [reflexivity | reflexivity | reflexivity | cbn; lia].
Defined.

Lemma C9_witness :
  let w := Samples.world Samples.env false 0 "qwen2" Samples.other_dataset in
  (exists d', Tuner.sft_select_scheduler Samples.text_dataset =
              inr (d', Some "constant")) /\
  (exists d', Tuner.sft_select_scheduler Samples.instruct_dataset =
              inr (d', Some "linear")) /\
  outcome (Tuner.sft_train w Samples.qwen_tuner Samples.other_dataset None
             "out" Tuner.sft_defaults) =
    inl (UnboundLocalError "lr_scheduler_type") /\
  outcome (Tuner.sft w Samples.qwen_tuner "d" "out" Tuner.sft_defaults) =
    inl (KeyError "instruct").
Proof.
  cbv zeta.
  pose proof (fun d =>
    C9_scheduler_type
      (Samples.world Samples.env false 0 "qwen2" Samples.other_dataset)
      Samples.qwen_tuner "d" "out" d Tuner.sft_defaults) as H.
  split; [| split; [| split]].
  - apply (proj1 (H Samples.text_dataset)); compute_done.
  - apply (proj1 (proj2 (H Samples.instruct_dataset))); compute_done.
  - apply (proj1 (proj2 (proj2 (H Samples.other_dataset))));
      first [compute_done | reflexivity | (left; reflexivity)].
  - apply (proj2 (proj2 (proj2 (H Samples.other_dataset))));
      first [compute_done | discriminate | reflexivity].
Defined.

Lemma C10_witness :
  exists m1 m2,
    Samples.strategy "gemma" = inr m1 /\
    Samples.strategy "gemma2" = inr m2 /\
    Models.prepare_chat_template m1 Samples.instruct_row =
    Models.prepare_chat_template m2 Samples.instruct_row.
Proof.
  eexists. eexists. split; [vm_compute; reflexivity |].
  split; [vm_compute; reflexivity |].
  apply (C10_formatting_deterministic
           (Samples.world Samples.env false 0 "gemma" Samples.instruct_dataset)
           (Samples.world Samples.env false 0 "gemma2" Samples.instruct_dataset)
           "m" "m"); vm_compute; reflexivity.
Defined.

(** * Further properties of the code *)

(** ** Construction: what a returned tuner looks like *)

Lemma trace_bind {A B} (m : M A) (k : A -> M B) :
  trace (m ≫= k) =
  trace m ++ match outcome m with inr a => trace (k a) | inl _ => [] end.
Proof.
  destruct (outcome m) as [e | a] eqn:Ho.
  - rewrite (trace_bind_raise m k e Ho). now rewrite app_nil_r.
  - apply (trace_bind_return m k a Ho).
Qed.

Lemma init_inversion (w : World) id enable_deepspeed t :
  outcome (Tuner.__init__ w id enable_deepspeed) = inr t ->
  exists v m,
    environ w !! "CUDA_VISIBLE_DEVICES" = Some v /\
    outcome (Models.get_model_config w id) = inr m /\
    Models.cls m <> Models.BaseModel /\
    known_family (model_type (AutoConfig_from_pretrained w id)) = true.
Proof.
  intros Ht.
  destruct (environ w !! "CUDA_VISIBLE_DEVICES") as [v |] eqn:Hv.
  - destruct (outcome (Models.get_model_config w id)) as [e | m] eqn:Hm.
    + unfold Tuner.__init__ in Ht. rewrite outcome_bind in Ht.
      destruct (print_cuda_info_present w v Hv) as [Hp _]. rewrite Hp in Ht.
      cbn [mbind result_bind] in Ht. rewrite outcome_bind, Hm in Ht.
      discriminate.
    + destruct (get_model_config_subclass w id m Hm) as [Hcls Hk]. eauto 8.
  - unfold Tuner.__init__ in Ht.
    rewrite (print_cuda_info_absent w Hv) in Ht. discriminate.
Qed.

(** X1. A constructed tuner has exactly one of the two precision flags set:
    fp16 on an accelerator of capability below 8, bf16 in every other case
    (no accelerator, or capability 8 and more). *)
Theorem X1_precision_flags_exclusive
    (w : World) (id : string) (enable_deepspeed : bool) (t : Tuner.Tuner) :
  outcome (Tuner.__init__ w id enable_deepspeed) = inr t ->
  Tuner.bf16 t = negb (Tuner.fp16 t) /\
  (Tuner.fp16 t = true <->
   cuda_is_available w = true /\ fst (cuda_device_capability w) < 8).
Proof.
  intros Ht. destruct (init_inversion w id enable_deepspeed t Ht)
    as (v & m & Hv & Hm & _).
  rewrite (init_spec w id enable_deepspeed v m Hv Hm) in Ht.
  apply inr_eq in Ht. subst t. cbn -[Nat.leb].
  destruct (cuda_is_available w);
    destruct (Nat.leb 8 (fst (cuda_device_capability w))) eqn:Hcap; cbn;
    (apply Nat.leb_le in Hcap || apply Nat.leb_gt in Hcap);
    (split; [reflexivity |]); split; intros H;
    try discriminate; try (destruct H; (discriminate || lia)); auto.
Qed.

(** X2. A constructed tuner places the model itself (device map "auto")
    exactly when it carries no distributed block; with a distributed block
    the device map is left to the distributed runtime ([None]). *)
Theorem X2_device_map_follows_distributed_block
    (w : World) (id : string) (enable_deepspeed : bool) (t : Tuner.Tuner) :
  outcome (Tuner.__init__ w id enable_deepspeed) = inr t ->
  Tuner.device_map t =
    match Tuner.deepspeed t with
    | Some _ => None
    | None => Some "auto"
    end /\
  (Tuner.device_map t = None <->
   cuda_is_available w = true /\ enable_deepspeed = true).
Proof.
  intros Ht. destruct (init_inversion w id enable_deepspeed t Ht)
    as (v & m & Hv & Hm & _).
  rewrite (init_spec w id enable_deepspeed v m Hv Hm) in Ht.
  apply inr_eq in Ht. subst t. cbn -[Nat.leb].
  destruct (cuda_is_available w), enable_deepspeed; cbn;
    (split; [reflexivity |]); split; intros H;
    try discriminate; try (destruct H; discriminate); auto.
Qed.

(** X3. Construction returns a tuner exactly when the visibility value is
    in the environment and the family is known; when both are wrong it is
    the key error of the environment value that is raised, the registry
    never being asked. *)
Theorem X3_construction_succeeds_iff
    (w : World) (id : string) (enable_deepspeed : bool) :
  ((exists t, outcome (Tuner.__init__ w id enable_deepspeed) = inr t) <->
   is_Some (environ w !! "CUDA_VISIBLE_DEVICES") /\
   known_family (model_type (AutoConfig_from_pretrained w id)) = true) /\
  (environ w !! "CUDA_VISIBLE_DEVICES" = None ->
   known_family (model_type (AutoConfig_from_pretrained w id)) = false ->
   Tuner.__init__ w id enable_deepspeed =
     (inl (KeyError "CUDA_VISIBLE_DEVICES"), [])).
Proof.
  split.
  - split.
    + intros [t Ht]. destruct (init_inversion w id enable_deepspeed t Ht)
        as (v & m & Hv & _ & _ & Hk). split; [now exists v | exact Hk].
    + intros [[v Hv] Hk].
      destruct (init_returns w id enable_deepspeed v Hv Hk) as (m & t & _ & _ & Ht & _).
      now exists t.
  - intros Hv _. unfold Tuner.__init__.
    now rewrite (print_cuda_info_absent w Hv).
Qed.

(** ** Construction: what it logs and calls *)

Lemma trace_emit_bind {B} e (k : unit -> M B) :
  trace (emit e ≫= k) = e :: trace (k tt).
Proof. now rewrite trace_bind. Qed.

Lemma print_devices_cons i d ds :
  trace (Tuner.print_devices i (d :: ds)) =
  Info ("GPU: " ++ PyStr.str_nat i)
  :: Info ("Total GPU Memory: " ++ PyStr.str_nat (total_memory d))
  :: Info ("Reserved GPU Memory: " ++ PyStr.str_nat (memory_reserved d))
  :: Info ("Allocated GPU Memory: " ++ PyStr.str_nat (memory_allocated d))
  :: Info Tuner.dashes51
  :: trace (Tuner.print_devices (S i) ds).
Proof. cbn [Tuner.print_devices]. now rewrite !trace_emit_bind. Qed.

Lemma print_devices_lines k ds :
  length (trace (Tuner.print_devices k ds)) = 5 * length ds /\
  forall i, i < length ds ->
    trace (Tuner.print_devices k ds) !! (5 * i) =
    Some (Info ("GPU: " ++ PyStr.str_nat (k + i))).
Proof.
  revert k; induction ds as [| d ds IH]; intros k.
  - split; [reflexivity |]. cbn. lia.
  - rewrite print_devices_cons. destruct (IH (S k)) as [Hlen Hget]. split.
    + cbn [length]. rewrite Hlen. lia.
    + intros [| i] Hi.
      * cbn. now rewrite Nat.add_0_r.
      * replace (5 * S i) with (S (S (S (S (S (5 * i)))))) by lia.
        cbn [lookup list_lookup]. cbn in Hi. rewrite Hget by lia.
        now replace (S k + i) with (k + S i) by lia.
Qed.

Lemma print_devices_no_init k ds :
  List.filter is_init_distributed (trace (Tuner.print_devices k ds)) = [].
Proof.
  revert k; induction ds as [| d ds IH]; intros k; [reflexivity |].
  rewrite print_devices_cons. cbn. apply IH.
Qed.

Lemma print_cuda_info_trace (w : World) v :
  environ w !! "CUDA_VISIBLE_DEVICES" = Some v ->
  trace (Tuner.print_cuda_info w) =
  Info ("visible_devices: " ++ v) :: Info Tuner.dashes51
  :: Info "CUDA Devices:" :: trace (Tuner.print_devices 0 (cuda_devices w)).
Proof.
  intros Hv. unfold Tuner.print_cuda_info, Models.getitem.
  rewrite os_environ_visible_devices, Hv. rewrite trace_bind.
  cbn [outcome lift fst trace snd app]. now rewrite !trace_emit_bind.
Qed.

Lemma get_model_config_no_init (w : World) id :
  List.filter is_init_distributed (trace (Models.get_model_config w id)) = [].
Proof.
  unfold Models.get_model_config, Models.BaseModel__init__. cbv zeta.
  repeat (destruct (PyStr.startswith _ _)); try reflexivity;
    repeat (destruct (PyStr.truthy _)); reflexivity.
Qed.

(** X4. [deepspeed.init_distributed] is called once when construction goes
    through (the environment value is there and the family is known) on a
    machine with an accelerator and with distributed mode requested, and is
    not called at all in any other case. *)
Theorem X4_init_distributed_calls
    (w : World) (id : string) (enable_deepspeed : bool) :
  length (List.filter is_init_distributed
            (trace (Tuner.__init__ w id enable_deepspeed))) =
  if bool_decide (is_Some (environ w !! "CUDA_VISIBLE_DEVICES"))
     && known_family (model_type (AutoConfig_from_pretrained w id))
     && cuda_is_available w && enable_deepspeed
  then 1 else 0.
Proof.
  unfold Tuner.__init__. rewrite trace_bind, List.filter_app, length_app.
  destruct (environ w !! "CUDA_VISIBLE_DEVICES") as [v |] eqn:Hv.
  - rewrite (print_cuda_info_trace w v Hv).
    destruct (print_cuda_info_present w v Hv) as [-> _].
    cbn [List.filter is_init_distributed]. rewrite print_devices_no_init.
    rewrite trace_bind, List.filter_app, length_app, get_model_config_no_init.
    cbn [length Nat.add].
    destruct (known_family (model_type (AutoConfig_from_pretrained w id))) eqn:Hk.
    + destruct (get_model_config_known w id Hk) as (m & -> & _).
      rewrite bool_decide_eq_true_2 by eauto. cbn [andb].
      destruct (cuda_is_available w), enable_deepspeed,
        (Nat.leb 8 (fst (cuda_device_capability w)));
        cbn -[PyStr.startswith Tuner.get_deepspeed_config];
        try destruct (PyStr.startswith _ "gemma"); reflexivity.
    + rewrite (get_model_config_unknown w id Hk).
      now rewrite andb_false_r.
  - rewrite (print_cuda_info_absent w Hv).
    rewrite bool_decide_eq_false_2 by (intros [? ?]; discriminate). reflexivity.
Qed.

(** X5. With the environment value present the informational dump logs
    three header lines and then five lines per device, the devices numbered
    from 0 in order; with no device it logs the header only. *)
Theorem X5_dump_lines (w : World) (v : string) :
  environ w !! "CUDA_VISIBLE_DEVICES" = Some v ->
  length (trace (Tuner.print_cuda_info w)) = 3 + 5 * length (cuda_devices w) /\
  forall i, i < length (cuda_devices w) ->
    trace (Tuner.print_cuda_info w) !! (3 + 5 * i) =
    Some (Info ("GPU: " ++ PyStr.str_nat i)).
Proof.
  intros Hv. rewrite (print_cuda_info_trace w v Hv).
  destruct (print_devices_lines 0 (cuda_devices w)) as [Hlen Hget]. split.
  - cbn [length]. rewrite Hlen. lia.
  - intros i Hi. cbn [Nat.add lookup list_lookup]. now rewrite Hget.
Qed.

(** ** [str.strip] and [str.replace] *)

Lemma all_space_cons c s :
  all_space (String c s) = PyStr.isspace c && all_space s.
Proof. reflexivity. Qed.

Lemma lstrip_all_space s : all_space s = true -> PyStr.lstrip s = "".
Proof.
  induction s as [| c s IH]; [reflexivity |].
  rewrite all_space_cons. intros [Hc Hs]%andb_true_iff. cbn. rewrite Hc. auto.
Qed.

Lemma rstrip_all_space s : all_space s = true -> PyStr.rstrip s = "".
Proof.
  induction s as [| c s IH]; [reflexivity |].
  rewrite all_space_cons. intros [Hc Hs]%andb_true_iff. cbn.
  rewrite (IH Hs). now rewrite Hc.
Qed.

Lemma append_nil_l (t : string) : ("" ++ t)%string = t.
Proof. reflexivity. Qed.

Lemma append_cons c (s t : string) :
  (String c s ++ t)%string = String c (s ++ t).
Proof. reflexivity. Qed.

Lemma lstrip_app s t :
  PyStr.lstrip (s ++ t) =
  match PyStr.lstrip s with
  | EmptyString => PyStr.lstrip t
  | r => (r ++ t)%string
  end.
Proof.
  induction s as [| c s IH].
  - rewrite append_nil_l. cbn. now destruct (PyStr.lstrip t).
  - rewrite append_cons. cbn [PyStr.lstrip].
    destruct (PyStr.isspace c); [exact IH | now rewrite append_cons].
Qed.

Lemma rstrip_app_space s b :
  all_space b = true -> PyStr.rstrip (s ++ b) = PyStr.rstrip s.
Proof.
  intros Hb. induction s as [| c s IH].
  - rewrite append_nil_l. now apply rstrip_all_space.
  - rewrite append_cons. cbn [PyStr.rstrip]. now rewrite IH.
Qed.

Lemma strip_padding a s b :
  all_space a = true -> all_space b = true ->
  PyStr.strip (a ++ s ++ b) = PyStr.strip s.
Proof.
  intros Ha Hb. unfold PyStr.strip.
  rewrite lstrip_app, (lstrip_all_space a Ha), lstrip_app.
  destruct (PyStr.lstrip s) as [| c r] eqn:Hs.
  - now rewrite (lstrip_all_space b Hb).
  - now apply rstrip_app_space.
Qed.

Lemma lstrip_head s : starts_with_space (PyStr.lstrip s) = false.
Proof.
  induction s as [| c s IH]; [reflexivity |]. cbn.
  destruct (PyStr.isspace c) eqn:Hc; [exact IH | exact Hc].
Qed.

Lemma rstrip_head s :
  starts_with_space s = false -> starts_with_space (PyStr.rstrip s) = false.
Proof.
  destruct s as [| c s]; [reflexivity |]. cbn. intros Hc.
  destruct (PyStr.rstrip s); [now rewrite Hc | exact Hc].
Qed.

Lemma rstrip_last s : ends_with_space (PyStr.rstrip s) = false.
Proof.
  induction s as [| c s IH]; [reflexivity |]. cbn.
  destruct (PyStr.rstrip s) as [| c' r].
  - destruct (PyStr.isspace c) eqn:Hc; [reflexivity | exact Hc].
  - exact IH.
Qed.

Lemma strip_trimmed s : trimmed (PyStr.strip s).
Proof.
  split; [apply rstrip_head, lstrip_head | apply rstrip_last].
Qed.

Lemma prefix_app p s : String.prefix p (p ++ s) = true.
Proof.
  induction p as [| c p IH]; [now destruct s |].
  rewrite append_cons. cbn [String.prefix].
  destruct (ascii_dec c c); [exact IH | contradiction].
Qed.

Lemma replace_from_skip old new p s :
  PyStr.replace_from old new (String.length p) (p ++ s) =
  PyStr.replace_from old new 0 s.
Proof.
  induction p as [| c p IH]; [reflexivity |].
  rewrite append_cons. exact IH.
Qed.

Lemma replace_prefix old new s :
  old <> "" ->
  PyStr.replace old new (old ++ s) = (new ++ PyStr.replace old new s)%string.
Proof.
  destruct old as [| c old]; [contradiction |]. intros _. unfold PyStr.replace.
  rewrite append_cons. cbn [PyStr.replace_from].
  rewrite <- append_cons, prefix_app. cbn [String.length].
  replace (S (String.length old) - 1) with (String.length old) by lia.
  now rewrite replace_from_skip.
Qed.

Lemma replace_absent old new s :
  occurs old s = false -> PyStr.replace old new s = s.
Proof.
  unfold PyStr.replace. induction s as [| c s IH]; [reflexivity |].
  cbn [occurs]. intros [Hp Hs]%orb_false_iff.
  cbn [PyStr.replace_from]. rewrite Hp. now rewrite IH.
Qed.

(** ** Prompt formatting: errors, whitespace, the BOS token *)

(** X6. A strategy of a subclass formats a Record exactly when the Record
    has the instruct, input and output fields; otherwise it raises the key
    error of the first missing field, in the order instruct, input,
    output. *)
Theorem X6_first_missing_field
    (m : Models.ModelConfig) (r : Record_) :
  Models.cls m <> Models.BaseModel ->
  (r !! "instruct" = None ->
     Models.prepare_chat_template m r = inl (KeyError "instruct")) /\
  (is_Some (r !! "instruct") -> r !! "input" = None ->
     Models.prepare_chat_template m r = inl (KeyError "input")) /\
  (is_Some (r !! "instruct") -> is_Some (r !! "input") -> r !! "output" = None ->
     Models.prepare_chat_template m r = inl (KeyError "output")) /\
  ((exists chat, Models.prepare_chat_template m r = inr chat) <->
   instruction_record r).
Proof.
  intros Hcls. unfold Models.prepare_chat_template, Models.getitem,
    instruction_record.
  split; [| split; [| split; [| split]]].
  - intros ->. now destruct (Models.cls m).
  - intros [i ->] ->. now destruct (Models.cls m).
  - intros [i ->] [n ->] ->. now destruct (Models.cls m).
  - intros [chat Hchat].
    destruct (r !! "instruct"), (r !! "input"), (r !! "output");
      destruct (Models.cls m); try contradiction; try discriminate;
      repeat split; eauto.
  - intros ([i ->] & [n ->] & [o ->]).
    destruct (Models.cls m); [contradiction | ..]; eexists; reflexivity.
Qed.

(** X7. Whitespace around the fields does not reach the prompt: a Record
    whose instruct, input and output are those of another Record with
    whitespace added in front and behind is formatted into the same prompt,
    by every strategy. *)
Theorem X7_prompt_ignores_surrounding_whitespace
    (m : Models.ModelConfig) (r r' : Record_)
    (i n o a1 b1 a2 b2 a3 b3 : string) :
  r !! "instruct" = Some i -> r !! "input" = Some n -> r !! "output" = Some o ->
  r' !! "instruct" = Some (a1 ++ i ++ b1)%string ->
  r' !! "input" = Some (a2 ++ n ++ b2)%string ->
  r' !! "output" = Some (a3 ++ o ++ b3)%string ->
  all_space a1 = true -> all_space b1 = true ->
  all_space a2 = true -> all_space b2 = true ->
  all_space a3 = true -> all_space b3 = true ->
  Models.prepare_chat_template m r' = Models.prepare_chat_template m r.
Proof.
  intros Hi Hn Ho Hi' Hn' Ho' Ha1 Hb1 Ha2 Hb2 Ha3 Hb3.
  unfold Models.prepare_chat_template, Models.getitem.
  rewrite Hi, Hn, Ho, Hi', Hn', Ho'. cbn [mbind result_bind].
  now rewrite !strip_padding by assumption.
Qed.

(** X8. The contents of a prompt are trimmed: no content of a cohere or
    qwen prompt starts or ends with whitespace, and for every family the
    prompt ends with the assistant message, whose content is trimmed. *)
Theorem X8_contents_trimmed
    (m : Models.ModelConfig) (r : Record_) (chat : list message) :
  Models.prepare_chat_template m r = inr (Some chat) ->
  (Models.cls m <> Models.GemmaModel ->
     Forall (fun msg => trimmed (content msg)) chat) /\
  (exists msg,
     last chat = Some msg /\ role msg = "assistant" /\ trimmed (content msg)).
Proof.
  unfold Models.prepare_chat_template, Models.getitem.
  destruct (r !! "instruct") as [i |], (r !! "input") as [n |],
    (r !! "output") as [o |];
    destruct (Models.cls m); cbn [mbind result_bind]; try discriminate;
    intros H; apply inr_eq in H; injection H as <-;
    (split; [intros Hg; try contradiction;
             repeat constructor; apply strip_trimmed
            | eexists; split; [reflexivity |];
              split; [reflexivity | apply strip_trimmed]]).
Qed.

(** X9. [apply_chat_template] removes the BOS token that the tokenizer's
    template puts in front: when the rendered text is the BOS token followed
    by a body in which the token does not occur, the result is the body.
    With no BOS token (or an empty one) the rendered text is returned as it
    is, and a formatting error is passed on. *)
Theorem X9_bos_token_removed
    (m : Models.ModelConfig) (r : Record_) :
  (forall chat bos body,
     Models.prepare_chat_template m r = inr chat ->
     bos_token (Models.tokenizer m) = Some bos -> bos <> "" ->
     tok_apply_chat_template (Models.tokenizer m) chat = (bos ++ body)%string ->
     occurs bos body = false ->
     Models.apply_chat_template m r = inr body) /\
  (forall chat,
     Models.prepare_chat_template m r = inr chat ->
     PyStr.truthy (bos_token (Models.tokenizer m)) = false ->
     Models.apply_chat_template m r =
     inr (tok_apply_chat_template (Models.tokenizer m) chat)) /\
  (forall e,
     Models.prepare_chat_template m r = inl e ->
     Models.apply_chat_template m r = inl e).
Proof.
  unfold Models.apply_chat_template. repeat split.
  - intros chat bos body -> Hbos Hne Htext Hocc. cbn [mbind result_bind].
    rewrite Hbos, Htext. destruct bos as [| c bos]; [contradiction |].
    cbn [PyStr.truthy default].
    rewrite replace_prefix by discriminate.
    rewrite (replace_absent _ _ _ Hocc). reflexivity.
  - intros chat -> Hfalsy. cbn [mbind result_bind]. now rewrite Hfalsy.
  - intros e ->. reflexivity.
Qed.

(** ** The stages of supervised fine-tuning, read backwards *)

Lemma mapM_inr {A B} (f : A -> result B) (l : list A) (ys : list B) :
  mapM (F := result) f l = inr ys -> Forall2 (fun x y => f x = inr y) l ys.
Proof.
  revert ys; induction l as [| a l IH]; intros ys H; cbn in H.
  - apply inr_eq in H. subst ys. constructor.
  - apply result_bind_inr in H as (b & Hb & H).
    apply result_bind_inr in H as (bs & Hbs & H).
    apply inr_eq in H. subst ys. constructor; [exact Hb | now apply IH].
Qed.

Lemma filterM_inr {A} (f : A -> result bool) (l kept : list A) :
  filterM (F := result) f l = inr kept ->
  sublist kept l /\ Forall (fun x => f x = inr true) kept /\
  ((forall x, x ∈ l -> f x = inr true) -> kept = l).
Proof.
  revert kept; induction l as [| a l IH]; intros kept H; cbn in H.
  - apply inr_eq in H. subst kept. repeat split; constructor.
  - apply result_bind_inr in H as (b & Hb & H).
    apply result_bind_inr in H as (rest & Hrest & H).
    apply inr_eq in H. destruct (IH rest Hrest) as (Hsub & Hall & Hsame).
    destruct b; subst kept.
    + repeat split; [now constructor | now constructor |].
      intros Hl. f_equal. apply Hsame. intros x Hx. apply Hl. now right.
    + repeat split; [now constructor | assumption |].
      intros Hl. specialize (Hl a (list_elem_of_here _ _)). congruence.
Qed.

Lemma with_encodings_columns (d : Dataset) (encs : list Encoding) (c : string) :
  c ∈ column_names d -> c ∈ column_names (Datasets.with_encodings d encs).
Proof.
  intros Hc. destruct encs; [exact Hc |]. cbn. apply elem_of_app. now left.
Qed.

Section Stages.
Variable w : World.

(** What a dataset that got through tokenization looks like. *)
Lemma sft_tokenize_inv self dataset o self' d :
  outcome (Tuner.sft_tokenize w self dataset o) = inr (self', d) ->
  let loaded := load_dataset w dataset in
  exists n r0 text kept encs ids,
    self' = Tuner.set_max_len n self /\
    Datasets.first_row loaded = inr r0 /\
    Tuner.get_instruction self' r0 = inr text /\
    filterM (F := result) (Tuner.filter_func self') (rows loaded) = inr kept /\
    mapM (F := result) (Tuner.map_func self') kept = inr encs /\
    d = Datasets.with_encodings
          {| column_names := column_names loaded; rows := kept;
             encodings := encodings loaded |} encs /\
    Datasets.first_input_ids d = inr ids.
Proof.
  unfold Tuner.sft_tokenize. cbv zeta. intros H. outcomes_in H.
  apply result_bind_inr in H as (inputs & _ & H). outcomes_in H.
  apply result_bind_inr in H as (n & _ & H). outcomes_in H.
  apply result_bind_inr in H as (text & Htext & H). outcomes_in H.
  apply result_bind_inr in H as (kept & Hkept & H). outcomes_in H.
  apply result_bind_inr in H as (encs & Hencs & H). outcomes_in H.
  apply result_bind_inr in H as (ids & Hids & H). outcomes_in H.
  apply inr_eq in H. injection H as <- <-.
  apply result_bind_inr in Htext as (r0 & Hr0 & Htext).
  exists n, r0, text, kept, encs, ids. repeat split; assumption.
Qed.

Lemma prepare_datasets_inv self d do_eval self1 tr ev :
  outcome (Tuner.prepare_datasets w self d do_eval) = inr (self1, tr, ev) ->
  (do_eval = false /\ self1 = Tuner.set_eval "no" None self /\
   tr = d /\ ev = None) \/
  (do_eval = true /\
   self1 = Tuner.set_eval "steps" (Some (PyFloat 1 (-1)))
             (Tuner.set_eval "no" None self) /\
   exists te, train_test_split w d = inr (tr, te) /\ ev = Some te).
Proof.
  unfold Tuner.prepare_datasets. destruct do_eval; intros H; outcomes_in H.
  - right. apply result_bind_inr in H as ([tr' te] & Hsplit & H).
    outcomes_in H. apply inr_eq in H. injection H as <- <- <-.
    split; [reflexivity |]. split; [reflexivity |]. eauto.
  - left. apply inr_eq in H. injection H as <- <- <-. repeat split.
Qed.

Lemma sft_train_inv self d lr adapter o self2 call :
  outcome (Tuner.sft_train w self d lr adapter o) = inr (self2, call) ->
  Tuner.comp_only o = false /\
  exists s tr ev,
    lr = Some s /\
    outcome (Tuner.prepare_datasets w self d (Tuner.do_eval o)) =
      inr (self2, tr, ev) /\
    Tuner.prepare_args self2 (Tuner.num_train_epochs o) (Tuner.learning_rate o)
      (Tuner.batch_size o) (Tuner.gradient_steps o) s = inr (Tuner.args call) /\
    Tuner.train_dataset call = tr /\ Tuner.eval_dataset call = ev /\
    Tuner.data_collator call = Tuner.DataCollatorForLanguageModeling /\
    Tuner.peft_config call =
      Tuner.get_lora_config self2 (Tuner.rank o) (Tuner.opt_lora_alpha o) /\
    Tuner.load_attn_implementation call = Tuner.attn_implementation self2 /\
    Tuner.load_device_map call = Tuner.device_map self2 /\
    Tuner.adapter_name call = adapter.
Proof.
  intros H. destruct (Tuner.comp_only o) eqn:Hc.
  { rewrite (sft_train_comp_only w self d lr adapter o Hc) in H. discriminate. }
  split; [reflexivity |]. unfold Tuner.sft_train in H. rewrite Hc in H.
  outcomes_in H.
  apply result_bind_inr in H as ([[s1 tr] ev] & Hprep & H).
  destruct lr as [s |]; outcomes_in H; [| discriminate].
  apply result_bind_inr in H as (args & Hargs & H). outcomes_in H.
  apply inr_eq in H. injection H as <- <-.
  exists s, tr, ev. cbn. repeat split; assumption.
Qed.

End Stages.

Section CompletedRuns.
Variable w : World.

Lemma sft_inv self dataset adapter o self2 call :
  outcome (Tuner.sft w self dataset adapter o) = inr (self2, call) ->
  exists self1 d d' lr,
    outcome (Tuner.sft_tokenize w self dataset o) = inr (self1, d) /\
    Tuner.sft_select_scheduler d = inr (d', lr) /\
    outcome (Tuner.sft_train w self1 d' lr adapter o) = inr (self2, call).
Proof.
  rewrite sft_stages. intros H.
  apply result_bind_inr in H as ([self1 d] & Htok & H).
  apply result_bind_inr in H as ([d' lr] & Hsel & H). eauto 8.
Qed.

(** The first record of a tokenized dataset is an instruction record, so a
    well-formed dataset has the three instruction columns. *)
Lemma sft_tokenize_columns self dataset o self1 d :
  Models.cls (Tuner.model_config self) <> Models.BaseModel ->
  dataset_wf (load_dataset w dataset) = true ->
  outcome (Tuner.sft_tokenize w self dataset o) = inr (self1, d) ->
  "instruct" ∈ column_names (load_dataset w dataset) /\
  "input" ∈ column_names (load_dataset w dataset) /\
  "output" ∈ column_names (load_dataset w dataset) /\
  (forall c, c ∈ column_names (load_dataset w dataset) -> c ∈ column_names d).
Proof.
  intros Hcls Hwf Htok.
  destruct (sft_tokenize_inv w self dataset o self1 d Htok)
    as (n & r0 & text & kept & encs & ids & -> & Hr0 & Htext & _ & _ & -> & _).
  unfold Tuner.get_instruction, Models.apply_chat_template in Htext.
  apply result_bind_inr in Htext as (chat & Hchat & _).
  apply (prepare_chat_template_returns _ _ _ Hcls) in Hchat
    as (Hi & Hn & Ho).
  unfold Datasets.first_row in Hr0. unfold dataset_wf in Hwf.
  destruct (rows (load_dataset w dataset)) as [| r rs]; [discriminate |].
  apply inr_eq in Hr0. subst r0. cbn in Hwf.
  apply andb_true_iff in Hwf as [Hwf _].
  repeat split; try (eapply row_wf_column; eassumption).
  intros c Hc. now apply with_encodings_columns.
Qed.

Lemma prepare_args_scheduler self e lr b g s args :
  Tuner.prepare_args self e lr b g s = inr args ->
  dict_get "lr_scheduler_type" args = Some (PStr s) /\
  dict_get "bf16" args = Some (PBool (Tuner.bf16 self)) /\
  dict_get "fp16" args = Some (PBool (Tuner.fp16 self)) /\
  dict_get "optim" args = Some (PStr (Tuner.optim self)) /\
  dict_get "deepspeed" args =
    Some (match Tuner.deepspeed self with Some d => PDict d | None => PNone end) /\
  (exists strategy steps,
     Tuner.eval_strategy self = Some strategy /\
     Tuner.eval_steps self = Some steps /\
     dict_get "eval_strategy" args = Some (PStr strategy) /\
     dict_get "eval_steps" args =
       Some (match steps with Some f => PFloat f | None => PNone end)) /\
  dict_keys args =
    ["output_dir"; "num_train_epochs"; "logging_steps"; "eval_strategy";
     "eval_steps"; "gradient_checkpointing"; "save_strategy"; "bf16"; "fp16";
     "optim"; "weight_decay"; "learning_rate"; "lr_scheduler_type";
     "per_device_train_batch_size"; "per_device_eval_batch_size";
     "gradient_accumulation_steps"; "eval_accumulation_steps"; "deepspeed"].
Proof.
  unfold Tuner.prepare_args, Tuner.attribute. intros H.
  destruct (Tuner.eval_strategy self) as [strategy |]; [| discriminate].
  destruct (Tuner.eval_steps self) as [steps |]; [| discriminate].
  cbn [mbind result_bind] in H. apply inr_eq in H. subst args.
  repeat split; try reflexivity. exists strategy, steps. repeat split.
Qed.

End CompletedRuns.

(** ** Completed runs of supervised fine-tuning *)

Lemma select_columns (d d' : Dataset) lr :
  Tuner.sft_select_scheduler d = inr (d', lr) ->
  ("text" ∉ column_names d') /\ ("instruct" ∉ column_names d') /\
  ("instruct" ∈ column_names d ->
     ("input" ∉ column_names d') /\ ("output" ∉ column_names d')) /\
  (forall c, c ∈ column_names d' -> c ∈ column_names d) /\
  (forall c, c ∉ ["text"; "instruct"; "input"; "output"] ->
     c ∈ column_names d -> c ∈ column_names d').
Proof.
  unfold Tuner.sft_select_scheduler. intros H.
  apply result_bind_inr in H as ([d1 lr1] & H1 & H).
  assert (("text" ∉ column_names d1) /\
          (forall c, c ∈ column_names d1 -> c ∈ column_names d) /\
          (forall c, c <> "text" -> c ∈ column_names d -> c ∈ column_names d1))
    as (Ht1 & Hsub1 & Hkeep1).
  { destruct (bool_decide ("text" ∈ column_names d)) eqn:Ht.
    - apply result_bind_inr in H1 as (d0 & Hd0 & H1).
      apply inr_eq in H1. injection H1 as <- <-.
      pose proof (fun c => remove_columns_columns d d0 ["text"] c Hd0) as Hc.
      repeat split.
      + intros Hin. apply Hc in Hin as [_ Hin]. apply Hin. constructor.
      + intros c Hin. now apply Hc in Hin.
      + intros c Hne Hin. apply Hc. split; [exact Hin |].
        rewrite not_elem_of_cons. split; [exact Hne | apply not_elem_of_nil].
    - apply bool_decide_eq_false in Ht. apply inr_eq in H1.
      injection H1 as <- <-. repeat split; auto. }
  destruct (bool_decide ("instruct" ∈ column_names d1)) eqn:Hi.
  - apply bool_decide_eq_true in Hi.
    apply result_bind_inr in H as (d2 & Hd2 & H).
    apply inr_eq in H. injection H as <- <-.
    pose proof (fun c => remove_columns_columns d1 d2
                  ["instruct"; "input"; "output"] c Hd2) as Hc.
    assert (forall c, c ∈ ["instruct"; "input"; "output"] -> c ∉ column_names d2)
      as Hgone.
    { intros c Hin Hc2. apply Hc in Hc2 as [_ Hc2]. contradiction. }
    split; [intros Hin; apply Ht1; now apply Hc in Hin |].
    split; [apply Hgone; constructor |].
    split; [intros _; split; apply Hgone; repeat constructor |].
    split; [intros c Hin; apply Hsub1; now apply Hc in Hin |].
    intros c Hnot Hin. apply Hc. split.
    + apply Hkeep1; [| exact Hin]. intros ->. apply Hnot. constructor.
    + intros Hc3. apply Hnot. now right.
  - apply bool_decide_eq_false in Hi. apply inr_eq in H.
    injection H as <- <-.
    split; [exact Ht1 |]. split; [exact Hi |].
    split; [intros Hin; exfalso; apply Hi, Hkeep1; [discriminate | exact Hin] |].
    split; [exact Hsub1 |].
    intros c Hnot Hin. apply Hkeep1; [| exact Hin].
    intros ->. apply Hnot. constructor.
Qed.

(** X10. A run of sft that reaches the trainer always carries the "linear"
    scheduler: with a strategy of the registry and a well-formed dataset, the
    dataset of a completed run has the instruct, input and output columns,
    the completion-only toggle is off, and the training arguments say
    "linear" (the "constant" of a text-only dataset is never handed on). *)
Theorem X10_completed_run_is_linear
    (w : World) (self : Tuner.Tuner) (dataset adapter : string)
    (o : Tuner.SftOptions) (self2 : Tuner.Tuner) (call : Tuner.TrainerCall) :
  Models.cls (Tuner.model_config self) <> Models.BaseModel ->
  dataset_wf (load_dataset w dataset) = true ->
  outcome (Tuner.sft w self dataset adapter o) = inr (self2, call) ->
  dict_get "lr_scheduler_type" (Tuner.args call) = Some (PStr "linear") /\
  Tuner.comp_only o = false /\
  "instruct" ∈ column_names (load_dataset w dataset) /\
  "input" ∈ column_names (load_dataset w dataset) /\
  "output" ∈ column_names (load_dataset w dataset).
Proof.
  intros Hcls Hwf Hrun.
  destruct (sft_inv w self dataset adapter o self2 call Hrun)
    as (self1 & d & d' & lr & Htok & Hsel & Htrain).
  destruct (sft_tokenize_columns w self dataset o self1 d Hcls Hwf Htok)
    as (Hi & Hn & Ho & Hsub).
  destruct (select_instruct d (Hsub _ Hi)) as [Hlin _].
  specialize (Hlin d' lr Hsel). subst lr.
  destruct (sft_train_inv w self1 d' _ adapter o self2 call Htrain)
    as (Hc & s & tr & ev & Hs & _ & Hargs & _).
  injection Hs as <-.
  destruct (prepare_args_scheduler _ _ _ _ _ _ _ Hargs) as (Hsched & _).
  repeat split; assumption.
Qed.

(** X11. What the trainer is given has no text columns left: with a
    strategy of the registry and a well-formed dataset, the train dataset of
    a completed run without evaluation split has none of the columns text,
    instruct, input, output, keeps every other column of the loaded dataset,
    and has the input_ids column of the tokenizer. *)
Theorem X11_trainer_gets_token_columns
    (w : World) (self : Tuner.Tuner) (dataset adapter : string)
    (o : Tuner.SftOptions) (self2 : Tuner.Tuner) (call : Tuner.TrainerCall) :
  Models.cls (Tuner.model_config self) <> Models.BaseModel ->
  dataset_wf (load_dataset w dataset) = true ->
  Tuner.do_eval o = false ->
  outcome (Tuner.sft w self dataset adapter o) = inr (self2, call) ->
  (forall c, c ∈ ["text"; "instruct"; "input"; "output"] ->
     c ∉ column_names (Tuner.train_dataset call)) /\
  (forall c, c ∉ ["text"; "instruct"; "input"; "output"] ->
     c ∈ column_names (load_dataset w dataset) ->
     c ∈ column_names (Tuner.train_dataset call)) /\
  "input_ids" ∈ column_names (Tuner.train_dataset call).
Proof.
  intros Hcls Hwf Heval Hrun.
  destruct (sft_inv w self dataset adapter o self2 call Hrun)
    as (self1 & d & d' & lr & Htok & Hsel & Htrain).
  destruct (sft_tokenize_columns w self dataset o self1 d Hcls Hwf Htok)
    as (Hi & Hn & Ho & Hsub).
  destruct (select_columns d d' lr Hsel) as (Ht' & Hi' & Hio & _ & Hkeep).
  destruct (Hio (Hsub _ Hi)) as [Hn' Ho'].
  destruct (sft_train_inv w self1 d' lr adapter o self2 call Htrain)
    as (_ & s & tr & ev & _ & Hprep & _ & Htr & _).
  rewrite Heval in Hprep.
  apply prepare_datasets_inv in Hprep as [(_ & _ & -> & _) | (? & _)];
    [| discriminate].
  rewrite Htr. split; [| split].
  - intros c Hc.
    repeat (apply elem_of_cons in Hc as [-> | Hc]; [assumption |]).
    now apply elem_of_nil in Hc.
  - intros c Hnot Hc. apply Hkeep; [exact Hnot | now apply Hsub].
  - apply Hkeep; [compute_done |].
    destruct (sft_tokenize_inv w self dataset o self1 d Htok)
      as (_ & _ & _ & _ & _ & ids & _ & _ & _ & _ & _ & _ & Hids).
    unfold Datasets.first_input_ids in Hids.
    destruct (bool_decide ("input_ids" ∈ column_names d)) eqn:Hin;
      [now apply bool_decide_eq_true in Hin | discriminate].
Qed.

(** X12. Tokenization keeps the rows in order, drops only rows, and gives
    every kept row one encoding: when a dataset that was loaded without
    token columns gets through lines 74-90, the kept rows are a non-empty
    sublist of the loaded rows, each formats to a text of at most [max_len]
    tokens, and the encodings are, row by row, the tokenizer's padded
    encoding of that text at [max_len]; nothing of the tuner changes but
    [max_len]. *)
Theorem X12_tokenization_invariants
    (w : World) (self : Tuner.Tuner) (dataset : string)
    (o : Tuner.SftOptions) (self1 : Tuner.Tuner) (d : Dataset) :
  encodings (load_dataset w dataset) = [] ->
  outcome (Tuner.sft_tokenize w self dataset o) = inr (self1, d) ->
  exists n,
    self1 = Tuner.set_max_len n self /\
    sublist (rows d) (rows (load_dataset w dataset)) /\
    rows d <> [] /\
    Forall (fun r => exists text,
              Tuner.get_instruction self r = inr text /\
              length (input_ids (tok_call (Tuner.tokenizer self) text None)) <= n)
           (rows d) /\
    Forall2 (fun r e => exists text,
               Tuner.get_instruction self r = inr text /\
               e = tok_call (Tuner.tokenizer self) text (Some n))
            (rows d) (encodings d).
Proof.
  intros Hraw Htok.
  destruct (sft_tokenize_inv w self dataset o self1 d Htok)
    as (n & r0 & text & kept & encs & ids & -> & _ & _ & Hkept & Hencs & -> & Hids).
  exists n. split; [reflexivity |].
  apply filterM_inr in Hkept as (Hsub & Hfit & _).
  apply mapM_inr in Hencs.
  destruct encs as [| e encs].
  { exfalso. unfold Datasets.first_input_ids in Hids. cbn in Hids.
    rewrite Hraw in Hids. now destruct (bool_decide _). }
  cbn [Datasets.with_encodings rows encodings].
  split; [exact Hsub |]. split; [intros ->; inversion Hencs |]. split.
  - eapply Forall_impl; [exact Hfit |]. intros r Hr. cbn beta in Hr.
    unfold Tuner.filter_func in Hr.
    apply result_bind_inr in Hr as (t & Ht & Hr). cbn in Hr.
    apply inr_eq in Hr. apply Nat.leb_le in Hr. eauto.
  - eapply Forall2_impl; [exact Hencs |]. intros r e' Hr. cbn beta in Hr.
    unfold Tuner.map_func in Hr.
    apply result_bind_inr in Hr as (t & Ht & Hr). cbn in Hr.
    apply inr_eq in Hr. eauto.
Qed.

(** X13. An empty dataset never reaches the trainer: sft fails on it, with
    the error of the length percentile if that raises on the empty list of
    lengths, and otherwise with the index error of the example row. *)
Theorem X13_empty_dataset_fails
    (w : World) (self : Tuner.Tuner) (dataset adapter : string)
    (o : Tuner.SftOptions) :
  rows (load_dataset w dataset) = [] ->
  (forall e,
     np_percentile_int w [] (Tuner.max_len_percentile o) = inl e ->
     outcome (Tuner.sft w self dataset adapter o) = inl e) /\
  (forall n,
     np_percentile_int w [] (Tuner.max_len_percentile o) = inr n ->
     outcome (Tuner.sft w self dataset adapter o) = inl IndexError).
Proof.
  intros Hrows. rewrite sft_stages. unfold Tuner.sft_tokenize. cbv zeta.
  rewrite outcome_bind, outcome_lift, Hrows.
  cbn [mapM mret result_ret mbind result_bind map].
  rewrite outcome_bind, outcome_lift. split.
  - intros e ->. reflexivity.
  - intros n ->. outcomes. unfold Datasets.first_row. rewrite Hrows.
    reflexivity.
Qed.

(** X14. What construction derived is what the trainer gets: in a completed
    run the training arguments carry the tuner's bf16, fp16, optimizer and
    distributed block, the base model is loaded with the tuner's device map
    and attention hint, and sft leaves the hyperparameters and the strategy
    of the tuner as they were. *)
Theorem X14_arguments_mirror_the_tuner
    (w : World) (self : Tuner.Tuner) (dataset adapter : string)
    (o : Tuner.SftOptions) (self2 : Tuner.Tuner) (call : Tuner.TrainerCall) :
  outcome (Tuner.sft w self dataset adapter o) = inr (self2, call) ->
  hyperparameters self2 = hyperparameters self /\
  Tuner.model_config self2 = Tuner.model_config self /\
  dict_get "bf16" (Tuner.args call) = Some (PBool (Tuner.bf16 self)) /\
  dict_get "fp16" (Tuner.args call) = Some (PBool (Tuner.fp16 self)) /\
  dict_get "optim" (Tuner.args call) = Some (PStr (Tuner.optim self)) /\
  dict_get "deepspeed" (Tuner.args call) =
    Some (match Tuner.deepspeed self with Some d => PDict d | None => PNone end) /\
  Tuner.load_device_map call = Tuner.device_map self /\
  Tuner.load_attn_implementation call = Tuner.attn_implementation self /\
  Tuner.adapter_name call = adapter.
Proof.
  intros Hrun.
  destruct (sft_inv w self dataset adapter o self2 call Hrun)
    as (self1 & d & d' & lr & Htok & Hsel & Htrain).
  apply sft_tokenize_tuner in Htok as [n ->].
  destruct (sft_train_inv w _ d' lr adapter o self2 call Htrain)
    as (_ & s & tr & ev & _ & Hprep & Hargs & _ & _ & _ & _ & Hattn & Hmap & Hname).
  destruct (prepare_args_scheduler _ _ _ _ _ _ _ Hargs)
    as (_ & Hbf & Hfp & Hopt & Hds & _).
  rewrite Hbf, Hfp, Hopt, Hds, Hattn, Hmap, Hname.
  apply prepare_datasets_inv in Hprep as [(_ & -> & _) | (_ & -> & _)];
    repeat split.
Qed.

(** X15. The evaluation settings agree with the evaluation dataset: a
    completed run without evaluation hands on no evaluation dataset, the
    strategy "no" and no evaluation steps, and trains on the whole selected
    dataset; a completed run with evaluation hands on the test part of the
    split, the strategy "steps" and 0.1 evaluation steps. *)
Theorem X15_evaluation_settings_agree
    (w : World) (self : Tuner.Tuner) (dataset adapter : string)
    (o : Tuner.SftOptions) (self2 : Tuner.Tuner) (call : Tuner.TrainerCall) :
  outcome (Tuner.sft w self dataset adapter o) = inr (self2, call) ->
  (Tuner.do_eval o = false ->
     Tuner.eval_dataset call = None /\
     dict_get "eval_strategy" (Tuner.args call) = Some (PStr "no") /\
     dict_get "eval_steps" (Tuner.args call) = Some PNone) /\
  (Tuner.do_eval o = true ->
     (exists d' te,
        train_test_split w d' = inr (Tuner.train_dataset call, te) /\
        Tuner.eval_dataset call = Some te) /\
     dict_get "eval_strategy" (Tuner.args call) = Some (PStr "steps") /\
     dict_get "eval_steps" (Tuner.args call) = Some (PFloat (PyFloat 1 (-1)))).
Proof.
  intros Hrun.
  destruct (sft_inv w self dataset adapter o self2 call Hrun)
    as (self1 & d & d' & lr & _ & _ & Htrain).
  destruct (sft_train_inv w self1 d' lr adapter o self2 call Htrain)
    as (_ & s & tr & ev & _ & Hprep & Hargs & Htr & Hev & _).
  destruct (prepare_args_scheduler _ _ _ _ _ _ _ Hargs)
    as (_ & _ & _ & _ & _ & (strategy & steps & Hst & Hsp & Hgst & Hgsp) & _).
  rewrite Hgst, Hgsp, Hev, Htr.
  apply prepare_datasets_inv in Hprep
    as [(-> & -> & _ & ->) | (-> & -> & te & Hsplit & ->)];
    cbn in Hst, Hsp; injection Hst as <-; injection Hsp as <-.
  - split; [intros _; repeat split | discriminate].
  - split; [discriminate | intros _]. repeat split.
    exists d', te. split; [exact Hsplit | reflexivity].
Qed.

(** X16. The training arguments need the evaluation attributes: on a tuner
    fresh from construction [prepare_args] raises the attribute error for
    [eval_strategy]; on the tuner that [prepare_datasets] returns it always
    succeeds, with eighteen distinct keys. *)
Theorem X16_arguments_after_prepare_datasets
    (w : World) (id : string) (enable_deepspeed : bool) (t : Tuner.Tuner)
    (epochs batch steps : nat) (lr : pyfloat) (s : string) :
  outcome (Tuner.__init__ w id enable_deepspeed) = inr t ->
  Tuner.prepare_args t epochs lr batch steps s =
    inl (AttributeError "Tuner" "eval_strategy") /\
  (forall d do_eval t1 tr ev,
     outcome (Tuner.prepare_datasets w t d do_eval) = inr (t1, tr, ev) ->
     exists args,
       Tuner.prepare_args t1 epochs lr batch steps s = inr args /\
       length args = 18 /\ NoDup (dict_keys args)).
Proof.
  intros Ht. destruct (init_inversion w id enable_deepspeed t Ht)
    as (v & m & Hv & Hm & _).
  rewrite (init_spec w id enable_deepspeed v m Hv Hm) in Ht.
  apply inr_eq in Ht. subst t. split; [reflexivity |].
  intros d do_eval t1 tr ev Hprep.
  apply prepare_datasets_inv in Hprep as [(_ & -> & _) | (_ & -> & _)];
    (eexists; split; [reflexivity |]; split; [reflexivity |];
     apply NoDup_ListNoDup; cbn;
     repeat (constructor; [cbn; intuition discriminate |]); constructor).
Qed.

(** ** The adapter configuration *)

(** X17. The [lora_dropout] parameter of sft has no effect: two calls that
    differ in nothing but [lora_dropout] log the same lines and end the same
    way, with the same call of the trainer. *)
Theorem X17_lora_dropout_is_ignored
    (w : World) (self : Tuner.Tuner) (dataset adapter : string)
    (o o' : Tuner.SftOptions) :
  Tuner.do_eval o = Tuner.do_eval o' ->
  Tuner.max_len_percentile o = Tuner.max_len_percentile o' ->
  Tuner.rank o = Tuner.rank o' ->
  Tuner.opt_lora_alpha o = Tuner.opt_lora_alpha o' ->
  Tuner.num_train_epochs o = Tuner.num_train_epochs o' ->
  Tuner.batch_size o = Tuner.batch_size o' ->
  Tuner.gradient_steps o = Tuner.gradient_steps o' ->
  Tuner.learning_rate o = Tuner.learning_rate o' ->
  Tuner.comp_only o = Tuner.comp_only o' ->
  Tuner.sft w self dataset adapter o = Tuner.sft w self dataset adapter o'.
Proof.
  destruct o, o'. cbn. intros -> -> -> -> -> -> -> -> ->. reflexivity.
Qed.

(** X18. The adapter configuration of a completed run: the rank is the
    [rank] parameter; [lora_alpha] is the parameter when that is a positive
    number and falls back to the rank when it is missing or 0; the dropout is
    0.1 and the task type CAUSAL_LM; and for a tuner fresh from construction
    the target modules are the same eight projection modules for every
    family. *)
Theorem X18_adapter_configuration
    (w : World) (id : string) (enable_deepspeed : bool) (self : Tuner.Tuner)
    (dataset adapter : string) (o : Tuner.SftOptions)
    (self2 : Tuner.Tuner) (call : Tuner.TrainerCall) :
  outcome (Tuner.__init__ w id enable_deepspeed) = inr self ->
  outcome (Tuner.sft w self dataset adapter o) = inr (self2, call) ->
  Tuner.r (Tuner.peft_config call) = Tuner.rank o /\
  (forall a, Tuner.opt_lora_alpha o = Some (S a) ->
     Tuner.lora_alpha (Tuner.peft_config call) = S a) /\
  (Tuner.opt_lora_alpha o = None \/ Tuner.opt_lora_alpha o = Some 0 ->
     Tuner.lora_alpha (Tuner.peft_config call) = Tuner.rank o) /\
  Tuner.lora_dropout (Tuner.peft_config call) = PyFloat 1 (-1) /\
  Tuner.task_type (Tuner.peft_config call) = "CAUSAL_LM" /\
  Tuner.lora_target_modules (Tuner.peft_config call) =
    ["q_proj"; "k_proj"; "v_proj"; "o_proj"; "gate_proj"; "up_proj";
     "down_proj"; "lm_head"].
Proof.
  intros Hinit Hrun.
  destruct (sft_inv w self dataset adapter o self2 call Hrun)
    as (self1 & d & d' & lr & Htok & _ & Htrain).
  apply sft_tokenize_tuner in Htok as [n ->].
  destruct (sft_train_inv w _ d' lr adapter o self2 call Htrain)
    as (_ & s & tr & ev & _ & Hprep & _ & _ & _ & _ & -> & _).
  assert (Tuner.model_config self2 = Tuner.model_config self) as Hmc.
  { apply prepare_datasets_inv in Hprep as [(_ & -> & _) | (_ & -> & _)];
      reflexivity. }
  unfold Tuner.get_lora_config. cbn. rewrite Hmc.
  destruct (init_inversion w id enable_deepspeed self Hinit)
    as (v & m & Hv & Hm & _).
  rewrite (init_spec w id enable_deepspeed v m Hv Hm) in Hinit.
  apply inr_eq in Hinit. subst self. cbn.
  assert (Models.target_modules m =
          ["q_proj"; "k_proj"; "v_proj"; "o_proj"; "gate_proj"; "up_proj";
           "down_proj"; "lm_head"]) as ->.
  { rewrite get_model_config_spec in Hm. cbv zeta in Hm.
    rewrite !BaseModel__init__spec in Hm.
    repeat (destruct (PyStr.startswith _ _)); try discriminate;
      apply inr_eq in Hm; now subst m. }
  split; [reflexivity |]. split; [now intros a -> |].
  split; [now intros [-> | ->] |]. repeat split.
Qed.

(** ** Preference tuning *)

Section Dpo.
Variable w : World.

Lemma dpo_outcome self dataset adapter o :
  outcome (Tuner.dpo w self dataset adapter o) =
  outcome (Tuner.prepare_datasets w self (load_dataset w dataset)
             (Tuner.dpo_do_eval o)) ≫= fun '(self1, tr, ev) =>
  Tuner.prepare_args self1 (Tuner.dpo_num_train_epochs o)
    (Tuner.dpo_learning_rate o) (Tuner.dpo_batch_size o)
    (Tuner.dpo_gradient_steps o) "linear" ≫= fun args =>
  inr (self1,
       {| Tuner.dpo_load_attn_implementation := Tuner.attn_implementation self1;
          Tuner.dpo_load_device_map := Tuner.device_map self1;
          Tuner.dpo_peft_config :=
            Tuner.get_lora_config self1 (Tuner.dpo_rank o) (Tuner.dpo_lora_alpha o);
          Tuner.dpo_train_dataset := tr;
          Tuner.dpo_eval_dataset := ev;
          Tuner.processing_class := Tuner.tokenizer self1;
          Tuner.dpo_args := args;
          Tuner.dpo_adapter_name := adapter |}).
Proof.
  unfold Tuner.dpo. cbv zeta. rewrite outcome_bind.
  destruct (outcome (Tuner.prepare_datasets w self _ _)) as [e | [[self1 tr] ev]];
    [reflexivity |].
  cbn [mbind result_bind]. rewrite outcome_bind, outcome_lift.
  destruct (Tuner.prepare_args _ _ _ _ _ _) as [e | args]; reflexivity.
Qed.



End Dpo.


(** X20. sft and dpo assemble the same training arguments: for a strategy
    of the registry and a well-formed dataset, a completed run of sft and a
    completed run of dpo with the same epochs, learning rate, batch size,
    gradient steps and evaluation toggle hand identical arguments to their
    trainers. *)
Theorem X20_sft_and_dpo_arguments_agree
    (w : World) (self : Tuner.Tuner) (dataset dataset' adapter adapter' : string)
    (o : Tuner.SftOptions) (o' : Tuner.DpoOptions)
    (self2 self2' : Tuner.Tuner) (call : Tuner.TrainerCall)
    (call' : Tuner.DPOTrainerCall) :
  Models.cls (Tuner.model_config self) <> Models.BaseModel ->
  dataset_wf (load_dataset w dataset) = true ->
  Tuner.do_eval o = Tuner.dpo_do_eval o' ->
  Tuner.num_train_epochs o = Tuner.dpo_num_train_epochs o' ->
  Tuner.learning_rate o = Tuner.dpo_learning_rate o' ->
  Tuner.batch_size o = Tuner.dpo_batch_size o' ->
  Tuner.gradient_steps o = Tuner.dpo_gradient_steps o' ->
  outcome (Tuner.sft w self dataset adapter o) = inr (self2, call) ->
  outcome (Tuner.dpo w self dataset' adapter' o') = inr (self2', call') ->
  Tuner.args call = Tuner.dpo_args call'.
Proof.
  intros Hcls Hwf He Hn Hl Hb Hg Hsft Hdpo.
  destruct (sft_inv w self dataset adapter o self2 call Hsft)
    as (self1 & d & d' & lr & Htok & Hsel & Htrain).
  destruct (sft_tokenize_columns w self dataset o self1 d Hcls Hwf Htok)
    as (Hi & _ & _ & Hsub).
  destruct (select_instruct d (Hsub _ Hi)) as [Hlin _].
  specialize (Hlin d' lr Hsel). subst lr.
  apply sft_tokenize_tuner in Htok as [n ->].
  destruct (sft_train_inv w _ d' _ adapter o self2 call Htrain)
    as (_ & s & tr & ev & Hs & Hprep & Hargs & _).
  injection Hs as <-.
  rewrite dpo_outcome in Hdpo.
  apply result_bind_inr in Hdpo as ([[s1 tr'] ev'] & Hprep' & Hdpo).
  apply result_bind_inr in Hdpo as (args' & Hargs' & Hdpo).
  apply inr_eq in Hdpo. injection Hdpo as <- <-. cbn [Tuner.dpo_args].
  rewrite <- He in Hprep'. rewrite <- Hn, <- Hl, <- Hb, <- Hg in Hargs'.
  apply prepare_datasets_inv in Hprep as [(Hev & -> & _) | (Hev & -> & _)];
    apply prepare_datasets_inv in Hprep' as [(Hev' & -> & _) | (Hev' & -> & _)];
    try congruence;
    cbn in Hargs, Hargs'; apply inr_eq in Hargs, Hargs'; congruence.
Qed.

(** ** Merging an adapter *)

Section MergeProperties.
Variable self : Tuner.Tuner.
Variables merged_name first_adapter : string.

(** Run the calls of [merge] one after the other, asking the oracle. *)
Ltac open_merge :=
  unfold Merge.merge, mbind, Merge.Script_bind, Merge.perform, Merge.note,
    Merge.try_except_pass.

Ltac step_calls orc :=
  repeat match goal with
         | |- context [orc ?c] =>
             let H := fresh "Hcall" in destruct (orc c) eqn:H; cbn
         end.

(** X21. Saving the vocabulary is best effort: whether that last call
    raises or not changes nothing of what merge does or returns; merge
    returns normally exactly when no other call raises, and when it fails the
    error is the one of the last call it made, which is never the vocabulary
    save. *)
Theorem X21_vocabulary_save_is_best_effort :
  (forall orc orc' : Merge.oracle,
     (forall c, Merge.is_save_vocabulary c = false -> orc c = orc' c) ->
     Merge.merge self merged_name first_adapter orc =
     Merge.merge self merged_name first_adapter orc') /\
  (forall orc : Merge.oracle,
     (forall c, Merge.is_save_vocabulary c = false -> orc c = None) ->
     fst (Merge.merge self merged_name first_adapter orc) = inr tt /\
     last (snd (Merge.merge self merged_name first_adapter orc)) =
       Some (Merge.SaveVocabulary merged_name)) /\
  (forall (orc : Merge.oracle) e,
     fst (Merge.merge self merged_name first_adapter orc) = inl e ->
     exists c,
       last (snd (Merge.merge self merged_name first_adapter orc)) = Some c /\
       Merge.is_save_vocabulary c = false /\ orc c = Some e).
Proof.
  split; [| split].
  - intros orc orc' Hagree. open_merge.
    destruct (tie_word_embeddings _);
      rewrite <- !Hagree by reflexivity; step_calls orc; step_calls orc';
      reflexivity.
  - intros orc Hok. open_merge.
    destruct (tie_word_embeddings _);
      rewrite !Hok by reflexivity; cbn;
      destruct (orc (Merge.SaveVocabulary merged_name)); split; reflexivity.
  - intros orc e. open_merge.
    destruct (tie_word_embeddings _);
      step_calls orc; intros He; try discriminate;
      apply (f_equal (fun r => match r with inl x => x | inr _ => e end)) in He;
      cbn in He; subst; eexists; (split; [reflexivity |]);
      (split; [reflexivity | assumption]).
Qed.


End MergeProperties.

(** ** The further properties at concrete inputs *)

Ltac evaluate := vm_compute; reflexivity.

Lemma X1_witness :
  Tuner.bf16 Samples.qwen_tuner = negb (Tuner.fp16 Samples.qwen_tuner).
Proof.
  apply (X1_precision_flags_exclusive
           (Samples.world Samples.env false 0 "qwen2" Samples.other_dataset)
           "m" true Samples.qwen_tuner).
  evaluate.
Defined.

Lemma X2_witness :
  Tuner.device_map Samples.qwen_tuner =
  match Tuner.deepspeed Samples.qwen_tuner with
  | Some _ => None
  | None => Some "auto"
  end.
Proof.
  apply (X2_device_map_follows_distributed_block
           (Samples.world Samples.env false 0 "qwen2" Samples.other_dataset)
           "m" true Samples.qwen_tuner).
  evaluate.
Defined.

Lemma X3_witness :
  (exists t, outcome (Tuner.__init__ Cases.w_cuda "m" true) = inr t) /\
  Tuner.__init__ (Samples.world ∅ true 8 "llama" Samples.instruct_dataset)
    "m" true = (inl (KeyError "CUDA_VISIBLE_DEVICES"), []).
Proof.
  split.
  - apply (proj1 (X3_construction_succeeds_iff Cases.w_cuda "m" true)).
    split; [eexists; reflexivity | reflexivity].
  - apply (proj2 (X3_construction_succeeds_iff
                    (Samples.world ∅ true 8 "llama" Samples.instruct_dataset)
                    "m" true)); reflexivity.
Defined.

Lemma X5_witness :
  length (trace (Tuner.print_cuda_info Cases.w_cuda)) = 3 + 5 * 1 /\
  trace (Tuner.print_cuda_info Cases.w_cuda) !! (3 + 5 * 0) =
    Some (Info ("GPU: " ++ PyStr.str_nat 0)).
Proof.
  destruct (X5_dump_lines Cases.w_cuda "0" eq_refl) as [Hlen Hget].
  split; [exact Hlen | apply Hget; cbn; lia].
Defined.

Lemma X6_witness :
  Models.prepare_chat_template (Tuner.model_config Samples.qwen_tuner)
    Samples.text_row = inl (KeyError "instruct").
Proof.
  apply (X6_first_missing_field (Tuner.model_config Samples.qwen_tuner)
           Samples.text_row); [discriminate | reflexivity].
Defined.

Lemma X7_witness :
  Models.prepare_chat_template (Tuner.model_config Cases.tied_tuner)
    Cases.padded_row =
  Models.prepare_chat_template (Tuner.model_config Cases.tied_tuner)
    Samples.instruct_row.
Proof.
  apply (X7_prompt_ignores_surrounding_whitespace
           (Tuner.model_config Cases.tied_tuner)
           Samples.instruct_row Cases.padded_row
           " Translate. " "bonjour" " hello"
           "  " (" " ++ Models.nl)%string Models.nl " " ""
           (Models.nl ++ Models.nl)%string);
    reflexivity.
Defined.

Lemma X8_witness :
  exists chat,
    Models.prepare_chat_template (Tuner.model_config Samples.qwen_tuner)
      Cases.padded_row = inr (Some chat) /\
    Forall (fun msg => trimmed (content msg)) chat.
Proof.
  eexists. split; [reflexivity |].
  eapply (X8_contents_trimmed (Tuner.model_config Samples.qwen_tuner)
            Cases.padded_row); [reflexivity | discriminate].
Defined.

Lemma X9_witness :
  exists body,
    Models.apply_chat_template (Tuner.model_config Samples.qwen_tuner)
      Samples.instruct_row = inr body /\
    occurs "<bos>" body = false.
Proof.
  eexists. split.
  - eapply (proj1 (X9_bos_token_removed (Tuner.model_config Samples.qwen_tuner)
                     Samples.instruct_row));
      [reflexivity | reflexivity | discriminate | evaluate | evaluate].
  - evaluate.
Defined.

Lemma X10_witness :
  exists self2 call,
    outcome (Tuner.sft Cases.w_instruct Samples.qwen_tuner "d" "out"
               Tuner.sft_defaults) = inr (self2, call) /\
    dict_get "lr_scheduler_type" (Tuner.args call) = Some (PStr "linear").
Proof.
  eexists. eexists. split; [evaluate |].
  eapply (X10_completed_run_is_linear Cases.w_instruct Samples.qwen_tuner
            "d" "out" Tuner.sft_defaults);
    [discriminate | reflexivity | evaluate].
Defined.

Lemma X11_witness :
  exists self2 call,
    outcome (Tuner.sft Cases.w_instruct Samples.qwen_tuner "d" "out"
               Tuner.sft_defaults) = inr (self2, call) /\
    "input_ids" ∈ column_names (Tuner.train_dataset call).
Proof.
  eexists. eexists. split; [evaluate |].
  eapply (X11_trainer_gets_token_columns Cases.w_instruct Samples.qwen_tuner
            "d" "out" Tuner.sft_defaults);
    [discriminate | reflexivity | reflexivity | evaluate].
Defined.

Lemma X12_witness :
  exists self1 d n,
    outcome (Tuner.sft_tokenize Cases.w_instruct Samples.qwen_tuner "d"
               Tuner.sft_defaults) = inr (self1, d) /\
    self1 = Tuner.set_max_len n Samples.qwen_tuner /\
    sublist (rows d) (rows Samples.instruct_dataset) /\ rows d <> [].
Proof.
  eexists. eexists.
  destruct (X12_tokenization_invariants Cases.w_instruct Samples.qwen_tuner
              "d" Tuner.sft_defaults _ _ eq_refl
              ltac:(vm_compute; reflexivity))
    as (n & Hself & Hsub & Hne & _).
  exists n. split; [reflexivity |]. split; [exact Hself |].
  split; [exact Hsub | exact Hne].
Defined.

Lemma X13_witness :
  outcome (Tuner.sft
             (Samples.world Samples.env false 0 "qwen2"
                {| column_names := ["instruct"; "input"; "output"];
                   rows := []; encodings := [] |})
             Samples.qwen_tuner "d" "out" Tuner.sft_defaults) =
  inl IndexError.
Proof.
  apply (proj1 (X13_empty_dataset_fails
                  (Samples.world Samples.env false 0 "qwen2"
                     {| column_names := ["instruct"; "input"; "output"];
                        rows := []; encodings := [] |})
                  Samples.qwen_tuner "d" "out" Tuner.sft_defaults eq_refl)).
  reflexivity.
Defined.

Lemma X14_witness :
  exists self2 call,
    outcome (Tuner.sft Cases.w_instruct Samples.qwen_tuner "d" "out"
               Tuner.sft_defaults) = inr (self2, call) /\
    hyperparameters self2 = hyperparameters Samples.qwen_tuner /\
    dict_get "optim" (Tuner.args call) = Some (PStr "adamw_8bit").
Proof.
  eexists. eexists. split; [evaluate |].
  destruct (X14_arguments_mirror_the_tuner Cases.w_instruct Samples.qwen_tuner
              "d" "out" Tuner.sft_defaults _ _
              ltac:(vm_compute; reflexivity))
    as (Hh & _ & _ & _ & Hopt & _).
  split; [exact Hh | exact Hopt].
Defined.

Lemma X15_witness :
  exists self2 call,
    outcome (Tuner.sft Cases.w_instruct Samples.qwen_tuner "d" "out"
               Cases.with_eval) = inr (self2, call) /\
    dict_get "eval_strategy" (Tuner.args call) = Some (PStr "steps") /\
    dict_get "eval_steps" (Tuner.args call) = Some (PFloat (PyFloat 1 (-1))).
Proof.
  eexists. eexists. split; [evaluate |].
  eapply (X15_evaluation_settings_agree Cases.w_instruct Samples.qwen_tuner
            "d" "out" Cases.with_eval); [evaluate | reflexivity].
Defined.

Lemma X16_witness :
  Tuner.prepare_args Samples.qwen_tuner 1 (PyFloat 1 (-5)) 4 2 "linear" =
  inl (AttributeError "Tuner" "eval_strategy").
Proof.
  apply (X16_arguments_after_prepare_datasets
           (Samples.world Samples.env false 0 "qwen2" Samples.other_dataset)
           "m" true Samples.qwen_tuner 1 4 2 (PyFloat 1 (-5)) "linear").
  evaluate.
Defined.

Lemma X17_witness :
  Tuner.sft Cases.w_instruct Samples.qwen_tuner "d" "out" Tuner.sft_defaults =
  Tuner.sft Cases.w_instruct Samples.qwen_tuner "d" "out" Cases.other_dropout.
Proof.
  apply (X17_lora_dropout_is_ignored Cases.w_instruct Samples.qwen_tuner
           "d" "out" Tuner.sft_defaults Cases.other_dropout); reflexivity.
Defined.

Lemma X18_witness :
  exists self2 call,
    outcome (Tuner.sft Cases.w_instruct Samples.qwen_tuner "d" "out"
               Cases.with_eval) = inr (self2, call) /\
    Tuner.r (Tuner.peft_config call) = 16 /\
    Tuner.lora_alpha (Tuner.peft_config call) = 16.
Proof.
  eexists. eexists. split; [evaluate |].
  destruct (X18_adapter_configuration Cases.w_instruct
              "m" true Samples.qwen_tuner "d" "out" Cases.with_eval _ _
              ltac:(vm_compute; reflexivity) ltac:(vm_compute; reflexivity))
    as (Hr & _ & Halpha & _).
  split; [exact Hr | apply Halpha; right; reflexivity].
Defined.


Lemma X20_witness :
  exists self2 call self2' call',
    outcome (Tuner.sft Cases.w_instruct Samples.qwen_tuner "d" "out"
               Cases.with_eval) = inr (self2, call) /\
    outcome (Tuner.dpo Cases.w_instruct Samples.qwen_tuner "p" "out2"
               Cases.dpo_with_eval) = inr (self2', call') /\
    Tuner.args call = Tuner.dpo_args call'.
Proof.
  eexists. eexists. eexists. eexists.
  split; [evaluate |]. split; [evaluate |].
  eapply (X20_sft_and_dpo_arguments_agree Cases.w_instruct Samples.qwen_tuner
            "d" "p" "out" "out2" Cases.with_eval Cases.dpo_with_eval);
    first [discriminate | reflexivity | evaluate].
Defined.

Lemma X21_witness :
  Merge.merge Cases.tied_tuner "merged" "adapter" Cases.vocabulary_raises =
  Merge.merge Cases.tied_tuner "merged" "adapter" Cases.nothing_raises.
Proof.
  apply (proj1 (X21_vocabulary_save_is_best_effort
                  Cases.tied_tuner "merged" "adapter")).
  intros c Hc. unfold Cases.vocabulary_raises, Cases.nothing_raises.
  now rewrite Hc.
Defined.

